(** * Estimate calculator of the asphalt guardian suite

    A shallow embedding of the [EstimateCalculator] component of
    [src/components/ProjectManagement.tsx] (lines 676-857): the rate
    tables, the [EstimateData] form state and the three callbacks
    [calculateMaterials], [calculateLaborAndEquipment] and
    [generateEstimate].

    Numbers.  A JavaScript [number] is an IEEE-754 binary64 value.  The
    embedding reads every arithmetic expression of the source over the
    exact rationals [Q]: [+], [-], [*], [/] are the field operations,
    [Math.ceil] is the integer ceiling, [Math.max] the maximum and [>] the
    strict order.  Rounding error, overflow to [Infinity] and [NaN] are
    therefore outside the model; equality of numbers is [Qeq] ([==]).

    Strings are [string]; [===] on strings is [String.eqb].  The React
    state of the component ([estimateData], [calculatedEstimate]) is an
    explicit record that [generateEstimate] transforms; the wall clock
    read by [new Date().toISOString()] is an argument. *)

From Stdlib Require Import QArith Qround Qminmax Lqa Lia ZArith String List.
From Stdlib Require Import Permutation.
Import ListNotations.

Open Scope string_scope.
Open Scope Q_scope.

(** ** JavaScript primitives used by the component *)

Module Math.

(** [Math.ceil(x)] *)
Definition ceil (x : Q) : Q := inject_Z (Qceiling x).

(** [Math.max(x, y)] *)
Definition max (x y : Q) : Q := Qmax x y.

End Math.

(** [x > y] *)
Definition gtb (x y : Q) : bool := negb (Qle_bool x y).
Infix ">?" := gtb (at level 70, no associativity) : Q_scope.

(** [Object.values(o).reduce((sum, cost) => sum + cost, 0)] on the list of
    the values of [o] in insertion order. *)
Definition reduce_sum (values : list Q) : Q :=
  fold_left (fun sum cost => sum + cost) values 0.

(** ** Rate tables (lines 676-705) *)

Module BUSINESS_CONFIG.
Definition address := "337 Ayers Orchard Road, Stuart, VA 24171".
Module employees.
Definition fullTime : Q := 2.
Definition partTime : Q := 1.
Definition hourlyWage : Q := 12.
End employees.
Definition blendedLaborRate : Q := 45.
Definition supplier := "SealMaster, 703 West Decatur Street, Madison, NC 27025".
End BUSINESS_CONFIG.

Module MATERIAL_COSTS.
Definition sealMasterPMM : Q := 3.79.
Definition sand50lb : Q := 10.00.
Definition prepSeal5gal : Q := 50.00.
Definition fastDry5gal : Q := 50.00.
Definition crackMaster30lb : Q := 44.95.
End MATERIAL_COSTS.

Module APPLICATION_RATES.
Module sealcoat.
Definition firstCoat : Q := 0.0144.
Definition additionalCoats : Q := 0.0111.
End sealcoat.
Definition sandMixRatio : Q := 300.
Definition waterRatio : Q := 0.20.
End APPLICATION_RATES.

(** ** Data model *)

(** [interface EstimateData] (lines 707-720). *)
Record EstimateData := mkEstimateData {
  projectType : string;
  squareFootage : Q;
  linearFootage : Q;
  numberOfCoats : Q;
  crackSeverity : string;
  oilSpotArea : Q;
  parkingStalls : Q;
  clientName : string;
  jobSiteAddress : string;
  travelDistance : Q;
  profitMargin : Q;
  additionalNotes : string
}.

(** The [materials] object of [calculateMaterials] (lines 743-751). *)
Module Materials.
Record t := mk {
  sealMasterPMM : Q;
  sand : Q;
  water : Q;
  prepSeal : Q;
  fastDry : Q;
  crackMaster : Q;
  totalMaterialCost : Q
}.

(** Field assignments [materials.f = v]. *)
Definition set_sealMasterPMM v m :=
  mk v (sand m) (water m) (prepSeal m) (fastDry m) (crackMaster m) (totalMaterialCost m).
Definition set_sand v m :=
  mk (sealMasterPMM m) v (water m) (prepSeal m) (fastDry m) (crackMaster m) (totalMaterialCost m).
Definition set_water v m :=
  mk (sealMasterPMM m) (sand m) v (prepSeal m) (fastDry m) (crackMaster m) (totalMaterialCost m).
Definition set_prepSeal v m :=
  mk (sealMasterPMM m) (sand m) (water m) v (fastDry m) (crackMaster m) (totalMaterialCost m).
Definition set_fastDry v m :=
  mk (sealMasterPMM m) (sand m) (water m) (prepSeal m) v (crackMaster m) (totalMaterialCost m).
Definition set_crackMaster v m :=
  mk (sealMasterPMM m) (sand m) (water m) (prepSeal m) (fastDry m) v (totalMaterialCost m).
Definition set_totalMaterialCost v m :=
  mk (sealMasterPMM m) (sand m) (water m) (prepSeal m) (fastDry m) (crackMaster m) v.
End Materials.

(** The [costs] object of [calculateMaterials] (lines 785-791). *)
Module Costs.
Record t := mk {
  sealMasterPMM : Q;
  sand : Q;
  prepSeal : Q;
  fastDry : Q;
  crackMaster : Q
}.

(** [Object.values(costs)]: the values in the order the keys were
    written. *)
Definition values (c : t) : list Q :=
  [sealMasterPMM c; sand c; prepSeal c; fastDry c; crackMaster c].
End Costs.

(** The object returned by [calculateLaborAndEquipment] (lines 827-833). *)
Module Labor.
Record t := mk {
  laborHours : Q;
  laborCost : Q;
  equipmentCost : Q;
  fuelCost : Q;
  totalLabor : Q
}.
End Labor.

(** The [estimate] object of [generateEstimate] (lines 845-854). *)
Module Estimate.
Record t := mk {
  materials : Materials.t;
  costs : Costs.t;
  labor : Labor.t;
  subtotal : Q;
  overhead : Q;
  profit : Q;
  total : Q;
  timestamp : string
}.
End Estimate.

(** The two [useState] cells of [EstimateCalculator] (lines 723-738). *)
Record State := mkState {
  estimateData : EstimateData;
  calculatedEstimate : option Estimate.t
}.

(** Initial state of the component. *)
Definition initialEstimateData : EstimateData :=
  mkEstimateData "" 0 0 1 "light" 0 0 "" "" 0 20 "".

Definition initialState : State := mkState initialEstimateData None.

(** ** The calculation callbacks *)

(** The severity multiplier (line 780). *)
Definition crackMultiplier (crackSeverity : string) : Q :=
  if String.eqb crackSeverity "severe" then 1.5
  else if String.eqb crackSeverity "moderate" then 1.2
  else 1.0.

(** The [costs] object literal (lines 785-791), as a function of the
    [materials] object it reads. *)
Definition materialCosts (materials : Materials.t) : Costs.t :=
  Costs.mk
    (Materials.sealMasterPMM materials * MATERIAL_COSTS.sealMasterPMM)
    (Math.ceil (Materials.sand materials / 50) * MATERIAL_COSTS.sand50lb)
    (Materials.prepSeal materials * MATERIAL_COSTS.prepSeal5gal)
    (Math.ceil (Materials.fastDry materials / 5) * MATERIAL_COSTS.fastDry5gal)
    (Materials.crackMaster materials * MATERIAL_COSTS.crackMaster30lb).

(** The quantities part of [calculateMaterials] (lines 741-782): the
    [materials] object just before the costs are computed. *)
Definition materialQuantities (estimateData : EstimateData) : Materials.t :=
  let squareFootage := squareFootage estimateData in
  let numberOfCoats := numberOfCoats estimateData in
  let linearFootage := linearFootage estimateData in
  let oilSpotArea := oilSpotArea estimateData in
  let crackSeverity := crackSeverity estimateData in
  let materials := Materials.mk 0 0 0 0 0 0 0 in
  (* Sealcoating calculations *)
  let materials :=
    if squareFootage >? 0 then
      let firstCoatGallons := squareFootage * APPLICATION_RATES.sealcoat.firstCoat in
      let totalPMM := firstCoatGallons in
      let totalPMM :=
        if numberOfCoats >? 1 then
          let additionalCoatsGallons :=
            squareFootage * APPLICATION_RATES.sealcoat.additionalCoats * (numberOfCoats - 1) in
          totalPMM + additionalCoatsGallons
        else totalPMM in
      let materials := Materials.set_sealMasterPMM totalPMM materials in
      let materials :=
        Materials.set_sand ((totalPMM / 100) * APPLICATION_RATES.sandMixRatio) materials in
      let materials :=
        Materials.set_water (totalPMM * APPLICATION_RATES.waterRatio) materials in
      Materials.set_fastDry ((totalPMM / 125) * 2) materials
    else materials in
  (* Oil spot primer *)
  let materials :=
    if oilSpotArea >? 0 then
      Materials.set_prepSeal (Math.ceil (oilSpotArea / 175)) materials
    else materials in
  (* Crack filling *)
  let materials :=
    if linearFootage >? 0 then
      let crackMultiplier := crackMultiplier crackSeverity in
      Materials.set_crackMaster (Math.ceil ((linearFootage * crackMultiplier) / 100)) materials
    else materials in
  materials.

(** The local [totalPMM] of the sealcoating branch (lines 756-763), the
    total gallons of concentrate; 0 when the branch is not taken. *)
Definition totalPMM (estimateData : EstimateData) : Q :=
  let squareFootage := squareFootage estimateData in
  let numberOfCoats := numberOfCoats estimateData in
  if squareFootage >? 0 then
    if numberOfCoats >? 1 then
      squareFootage * APPLICATION_RATES.sealcoat.firstCoat
      + squareFootage * APPLICATION_RATES.sealcoat.additionalCoats * (numberOfCoats - 1)
    else squareFootage * APPLICATION_RATES.sealcoat.firstCoat
  else 0.

(** [calculateMaterials] (lines 740-796). *)
Definition calculateMaterials (estimateData : EstimateData) : Materials.t * Costs.t :=
  let materials := materialQuantities estimateData in
  let costs := materialCosts materials in
  let materials :=
    Materials.set_totalMaterialCost (reduce_sum (Costs.values costs)) materials in
  (materials, costs).

(** The hours worked, before the minimum is applied (lines 802-812),
    written as the sum of the two optional terms. *)
Definition workedHours (d : EstimateData) : Q :=
  (if squareFootage d >? 0 then (squareFootage d / 1000) * 2 else 0)
  + (if linearFootage d >? 0 then linearFootage d / 100 else 0).

(** [calculateLaborAndEquipment] (lines 798-834). *)
Definition calculateLaborAndEquipment (estimateData : EstimateData) : Labor.t :=
  let squareFootage := squareFootage estimateData in
  let linearFootage := linearFootage estimateData in
  let travelDistance := travelDistance estimateData in
  let laborHours := 0 in
  let laborHours :=
    if squareFootage >? 0 then laborHours + (squareFootage / 1000) * 2 else laborHours in
  let laborHours :=
    if linearFootage >? 0 then laborHours + linearFootage / 100 else laborHours in
  let laborHours := Math.max laborHours 4 in
  let laborCost := laborHours * BUSINESS_CONFIG.blendedLaborRate * 3 in
  let equipmentHours := laborHours in
  let equipmentCost := equipmentHours * 50 in
  let roundTripMiles := travelDistance * 2 in
  let fuelCost := (roundTripMiles / 15) * 4.50 in
  Labor.mk laborHours laborCost equipmentCost fuelCost
           (laborCost + equipmentCost + fuelCost).

(** The [estimate] object built by [generateEstimate] (lines 837-854);
    [now] is the value of [new Date().toISOString()]. *)
Definition buildEstimate (now : string) (estimateData : EstimateData) : Estimate.t :=
  let '(materials, costs) := calculateMaterials estimateData in
  let labor := calculateLaborAndEquipment estimateData in
  let subtotal := Materials.totalMaterialCost materials + Labor.totalLabor labor in
  let overhead := subtotal * 0.15 in
  let profit := subtotal * (profitMargin estimateData / 100) in
  let total := subtotal + overhead + profit in
  Estimate.mk materials costs labor subtotal overhead profit total now.

(** [generateEstimate] (lines 836-857): builds the estimate from the
    current [estimateData] and stores it with [setCalculatedEstimate]. *)
Definition generateEstimate (now : string) (st : State) : State :=
  mkState (estimateData st) (Some (buildEstimate now (estimateData st))).

(** The estimate a click on "generate" leaves in the state, if any. *)
Definition estimateOf (now : string) (estimateData : EstimateData) : option Estimate.t :=
  calculatedEstimate (generateEstimate now (mkState estimateData None)).

(** ** Form updates *)

(** A key of [EstimateData] together with the value written to it: the two
    arguments of [handleInputChange] (line 859). *)
Inductive FieldValue :=
| ProjectType (v : string)
| SquareFootage (v : Q)
| LinearFootage (v : Q)
| NumberOfCoats (v : Q)
| CrackSeverity (v : string)
| OilSpotArea (v : Q)
| ParkingStalls (v : Q)
| ClientName (v : string)
| JobSiteAddress (v : string)
| TravelDistance (v : Q)
| ProfitMargin (v : Q)
| AdditionalNotes (v : string).

(** The object spread [{ ...prev, [field]: value }] (line 860). *)
Definition updateField (fv : FieldValue) (prev : EstimateData) : EstimateData :=
  let '(mkEstimateData pt sq lf nc cs oil ps cn ja td pm an) := prev in
  match fv with
  | ProjectType v => mkEstimateData v sq lf nc cs oil ps cn ja td pm an
  | SquareFootage v => mkEstimateData pt v lf nc cs oil ps cn ja td pm an
  | LinearFootage v => mkEstimateData pt sq v nc cs oil ps cn ja td pm an
  | NumberOfCoats v => mkEstimateData pt sq lf v cs oil ps cn ja td pm an
  | CrackSeverity v => mkEstimateData pt sq lf nc v oil ps cn ja td pm an
  | OilSpotArea v => mkEstimateData pt sq lf nc cs v ps cn ja td pm an
  | ParkingStalls v => mkEstimateData pt sq lf nc cs oil v cn ja td pm an
  | ClientName v => mkEstimateData pt sq lf nc cs oil ps v ja td pm an
  | JobSiteAddress v => mkEstimateData pt sq lf nc cs oil ps cn v td pm an
  | TravelDistance v => mkEstimateData pt sq lf nc cs oil ps cn ja v pm an
  | ProfitMargin v => mkEstimateData pt sq lf nc cs oil ps cn ja td v an
  | AdditionalNotes v => mkEstimateData pt sq lf nc cs oil ps cn ja td pm v
  end.

(** [handleInputChange] (lines 859-861). *)
Definition handleInputChange (fv : FieldValue) (st : State) : State :=
  mkState (updateField fv (estimateData st)) (calculatedEstimate st).

(** ** The documented input domain *)

(** Every numeric field of the job is at least 0. *)
Definition nonNegativeFields (d : EstimateData) : Prop :=
  0 <= squareFootage d /\ 0 <= linearFootage d /\ 0 <= numberOfCoats d /\
  0 <= oilSpotArea d /\ 0 <= parkingStalls d /\ 0 <= travelDistance d /\
  0 <= profitMargin d.

(** The enumerated domains offered by the form (lines 885-889, 935-937,
    952-954). *)
Definition projectTypes : list string :=
  ["sealcoating"; "crack-filling"; "patching"; "line-striping"; "combination"].

Definition crackSeverities : list string := ["light"; "moderate"; "severe"].

Definition coatCounts : list Q := [1; 2; 3].

Definition coatsInDomain (d : EstimateData) : Prop :=
  exists n, In n coatCounts /\ numberOfCoats d == n.

Definition severityInDomain (d : EstimateData) : Prop :=
  In (crackSeverity d) crackSeverities.

Definition projectTypeInDomain (d : EstimateData) : Prop :=
  In (projectType d) projectTypes.

(** A valid job: non-negative quantities, one to three coats, a listed
    severity and a profit margin of at most 100 percent. *)
Definition validJob (d : EstimateData) : Prop :=
  nonNegativeFields d /\ coatsInDomain d /\ severityInDomain d /\
  profitMargin d <= 100.

(** An invalid job: some numeric field is negative, or one of the three
    enumerated fields is outside its domain. *)
Definition invalidJob (d : EstimateData) : Prop :=
  ~ nonNegativeFields d \/ ~ coatsInDomain d \/ ~ severityInDomain d \/
  ~ projectTypeInDomain d.

(** The engine rejects a job when a click on "generate" stores no
    estimate. *)
Definition rejected (now : string) (d : EstimateData) : Prop :=
  estimateOf now d = None.

(** ** The example scenarios *)

(** 1000 square feet, one coat, nothing else, 20 percent margin. *)
Definition scenario1 : EstimateData :=
  mkEstimateData "sealcoating" 1000 0 1 "light" 0 0 "" "" 0 20 "".

(** Every quantity zero, 20 percent margin. *)
Definition scenario2 : EstimateData :=
  mkEstimateData "sealcoating" 0 0 1 "light" 0 0 "" "" 0 20 "".

(** 500 linear feet of severe cracks. *)
Definition scenario3 : EstimateData :=
  mkEstimateData "crack-filling" 0 500 1 "severe" 0 0 "" "" 0 20 "".

(** A job typed with a minus sign in four of the number inputs. *)
Definition negativeJob : EstimateData :=
  mkEstimateData "sealcoating" (-5) (-5) 1 "light" (-5) 0 "" "" (-30) 20 "".

(** A job of 350 square feet of oil spots. *)
Definition oilSpotJob : EstimateData :=
  mkEstimateData "sealcoating" 0 0 1 "light" 350 0 "" "" 0 20 "".

(** A full job: two coats over 12000 square feet, 240 feet of moderate
    cracks, oil spots and 25 miles of travel. *)
Definition fullJob : EstimateData :=
  mkEstimateData "combination" 12000 240 2 "moderate" 400 10 "A" "B" 25 25 "".

(** ** The results card (lines 1046-1170) *)

(** The priced lines of the "Materials & Supplies" grid (lines
    1069-1098), in display order: the name a line is shown under and the
    cost printed beside it. Each line is rendered only when its guard
    holds. *)
Definition materialLines (calculatedEstimate : Estimate.t) : list (string * Q) :=
  let materials := Estimate.materials calculatedEstimate in
  let costs := Estimate.costs calculatedEstimate in
  (if Materials.sealMasterPMM materials >? 0
   then [("SealMaster PMM", Costs.sealMasterPMM costs)] else [])
  ++ (if Materials.sand materials >? 0
      then [("Sand", Costs.sand costs)] else [])
  ++ (if Costs.prepSeal costs >? 0
      then [("Prep Seal", Costs.prepSeal costs)] else [])
  ++ (if Costs.fastDry costs >? 0
      then [("Fast Dry", Costs.fastDry costs)] else [])
  ++ (if Costs.crackMaster costs >? 0
      then [("CrackMaster", Costs.crackMaster costs)] else []).

(** The names of the lines shown. *)
Definition shownLines (calculatedEstimate : Estimate.t) : list string :=
  map fst (materialLines calculatedEstimate).


(** The two labels of the card that read the live form instead of the
    stored estimate: the round-trip miles (line 1126) and the profit
    percentage (line 1150). *)
Definition shownMiles (st : State) : Q := travelDistance (estimateData st) * 2.

Definition shownMarginPercent (st : State) : Q := profitMargin (estimateData st).

(** ** The form (lines 876-1033) *)

(** The value stored in the field that a [FieldValue] writes, read back
    from the form data, as a [FieldValue] again. *)
Definition readField (fv : FieldValue) (d : EstimateData) : FieldValue :=
  match fv with
  | ProjectType _ => ProjectType (projectType d)
  | SquareFootage _ => SquareFootage (squareFootage d)
  | LinearFootage _ => LinearFootage (linearFootage d)
  | NumberOfCoats _ => NumberOfCoats (numberOfCoats d)
  | CrackSeverity _ => CrackSeverity (crackSeverity d)
  | OilSpotArea _ => OilSpotArea (oilSpotArea d)
  | ParkingStalls _ => ParkingStalls (parkingStalls d)
  | ClientName _ => ClientName (clientName d)
  | JobSiteAddress _ => JobSiteAddress (jobSiteAddress d)
  | TravelDistance _ => TravelDistance (travelDistance d)
  | ProfitMargin _ => ProfitMargin (profitMargin d)
  | AdditionalNotes _ => AdditionalNotes (additionalNotes d)
  end.

(** Two [FieldValue]s write the same key of [EstimateData]. *)
Definition sameField (fv1 fv2 : FieldValue) : bool :=
  match fv1, fv2 with
  | ProjectType _, ProjectType _
  | SquareFootage _, SquareFootage _
  | LinearFootage _, LinearFootage _
  | NumberOfCoats _, NumberOfCoats _
  | CrackSeverity _, CrackSeverity _
  | OilSpotArea _, OilSpotArea _
  | ParkingStalls _, ParkingStalls _
  | ClientName _, ClientName _
  | JobSiteAddress _, JobSiteAddress _
  | TravelDistance _, TravelDistance _
  | ProfitMargin _, ProfitMargin _
  | AdditionalNotes _, AdditionalNotes _ => true
  | _, _ => false
  end.

(** [parseInt(s) || fallback], given what [parseInt(s)] returned: [None]
    for [NaN], which is falsy like 0. *)
Definition parsedOr (parsed : option Z) (fallback : Z) : Q :=
  match parsed with
  | Some n => if Z.eqb n 0 then inject_Z fallback else inject_Z n
  | None => inject_Z fallback
  end.

(** The items of the three [Select] controls (lines 885-889, 935-937,
    952-954). *)
Inductive ProjectTypeItem :=
| ItemSealcoating | ItemCrackFilling | ItemPatching | ItemLineStriping
| ItemCombination.

Inductive CoatsItem := Item1Coat | Item2Coats | Item3Coats.

Inductive SeverityItem := ItemLight | ItemModerate | ItemSevere.

(** The [value] attribute of an item. *)
Definition projectTypeValue (item : ProjectTypeItem) : string :=
  match item with
  | ItemSealcoating => "sealcoating"
  | ItemCrackFilling => "crack-filling"
  | ItemPatching => "patching"
  | ItemLineStriping => "line-striping"
  | ItemCombination => "combination"
  end.

(** [parseInt(value)] for the values "1", "2" and "3" (line 931). *)
Definition coatsValue (item : CoatsItem) : Q :=
  match item with
  | Item1Coat => 1
  | Item2Coats => 2
  | Item3Coats => 3
  end.

Definition severityValue (item : SeverityItem) : string :=
  match item with
  | ItemLight => "light"
  | ItemModerate => "moderate"
  | ItemSevere => "severe"
  end.

(** What the user can do to the form: choose an item of a [Select], or
    type into an input. For a number input the event carries what
    [parseInt(e.target.value)] returned, [None] standing for [NaN]. *)
Inductive FormEvent :=
| ChooseProjectType (item : ProjectTypeItem)
| TypeClientName (value : string)
| TypeSquareFootage (parsed : option Z)
| TypeLinearFootage (parsed : option Z)
| ChooseCoats (item : CoatsItem)
| ChooseSeverity (item : SeverityItem)
| TypeOilSpotArea (parsed : option Z)
| TypeJobSiteAddress (value : string)
| TypeTravelDistance (parsed : option Z)
| TypeProfitMargin (parsed : option Z)
| TypeParkingStalls (parsed : option Z)
| TypeAdditionalNotes (value : string).

(** The [onChange] and [onValueChange] handlers of the form: the call of
    [handleInputChange] each event makes. *)
Definition onChange (ev : FormEvent) : FieldValue :=
  match ev with
  | ChooseProjectType item => ProjectType (projectTypeValue item)
  | TypeClientName value => ClientName value
  | TypeSquareFootage parsed => SquareFootage (parsedOr parsed 0)
  | TypeLinearFootage parsed => LinearFootage (parsedOr parsed 0)
  | ChooseCoats item => NumberOfCoats (coatsValue item)
  | ChooseSeverity item => CrackSeverity (severityValue item)
  | TypeOilSpotArea parsed => OilSpotArea (parsedOr parsed 0)
  | TypeJobSiteAddress value => JobSiteAddress value
  | TypeTravelDistance parsed => TravelDistance (parsedOr parsed 0)
  | TypeProfitMargin parsed => ProfitMargin (parsedOr parsed 20)
  | TypeParkingStalls parsed => ParkingStalls (parsedOr parsed 0)
  | TypeAdditionalNotes value => AdditionalNotes value
  end.

(** A user action on the calculator: an edit of the form, or a click on
    the generate button at the time [now]. *)
Inductive UiEvent :=
| Edit (ev : FormEvent)
| Generate (now : string).

Definition uiStep (st : State) (ev : UiEvent) : State :=
  match ev with
  | Edit ev => handleInputChange (onChange ev) st
  | Generate now => generateEstimate now st
  end.

(** The state after a session of user actions on a fresh calculator. *)
Definition uiRun (events : list UiEvent) : State :=
  fold_left uiStep events initialState.




(** * The project board

    The [ProjectManagement] component of the same file (lines 15-218 and
    the statistics of its overview tab, lines 241-290 and 313). Its
    state is an explicit record. A call of the hosted backend is
    modelled by its outcome, an argument of the callback: [Failure] when
    the call throws or reports an [error], [Success] with the returned
    [data] otherwise; the state updates of a callback are applied in one
    step, with the [selectedProject] the callback closed over being the
    current one. *)

(** [x || 0] on a number. *)
Definition orZero (x : Q) : Q := if Qeq_bool x 0 then 0 else x.

(** [interface Project] (lines 15-31). *)
Module Project.
Record t := mk {
  id : string;
  name : string;
  description : string;
  status : string;
  project_type : string;
  start_date : string;
  end_date : string;
  site_address : string;
  client_name : string;
  client_phone : string;
  client_email : string;
  estimated_cost : Q;
  actual_cost : Q;
  created_at : string;
  created_by : string
}.

(** [{ ...p, status }] *)
Definition set_status (status' : string) (p : t) : t :=
  mk (id p) (name p) (description p) status' (project_type p) (start_date p)
     (end_date p) (site_address p) (client_name p) (client_phone p)
     (client_email p) (estimated_cost p) (actual_cost p) (created_at p)
     (created_by p).
End Project.

(** [interface Milestone] (lines 33-42). *)
Module Milestone.
Record t := mk {
  id : string;
  project_id : string;
  title : string;
  description : string;
  status : string;
  target_date : string;
  completed_date : string;
  tasks : list string
}.
End Milestone.

(** The [newProject] form state (lines 49-60). *)
Module NewProject.
Record t := mk {
  name : string;
  description : string;
  project_type : string;
  start_date : string;
  end_date : string;
  site_address : string;
  client_name : string;
  client_phone : string;
  client_email : string;
  estimated_cost : Q
}.

Definition empty : t := mk "" "" "asphalt_paving" "" "" "" "" "" "" 0.
End NewProject.

(** An argument of [toast]; [destructive] stands for
    [variant: "destructive"]. *)
Record Toast := mkToast {
  toastTitle : string;
  toastDescription : string;
  destructive : bool
}.

(** The outcome of a backend call. *)
Inductive Reply (A : Type) :=
| Failure
| Success (data : A).
Arguments Failure {A}.
Arguments Success {A} data.

Module Board.

(** The [useState] cells of [ProjectManagement] (lines 45-60) and the
    toasts raised so far, latest first. *)
Record State := mkState {
  projects : list Project.t;
  milestones : list Milestone.t;
  selectedProject : option Project.t;
  isCreatingProject : bool;
  newProject : NewProject.t;
  toasts : list Toast
}.

Definition initialState : State :=
  mkState [] [] None false NewProject.empty [].

Definition toast (t : Toast) (st : State) : State :=
  mkState (projects st) (milestones st) (selectedProject st)
          (isCreatingProject st) (newProject st) (t :: toasts st).

Definition setProjects (f : list Project.t -> list Project.t) (st : State) : State :=
  mkState (f (projects st)) (milestones st) (selectedProject st)
          (isCreatingProject st) (newProject st) (toasts st).

Definition setMilestones (ms : list Milestone.t) (st : State) : State :=
  mkState (projects st) ms (selectedProject st)
          (isCreatingProject st) (newProject st) (toasts st).

Definition setSelectedProject
    (f : option Project.t -> option Project.t) (st : State) : State :=
  mkState (projects st) (milestones st) (f (selectedProject st))
          (isCreatingProject st) (newProject st) (toasts st).

Definition setIsCreatingProject (b : bool) (st : State) : State :=
  mkState (projects st) (milestones st) (selectedProject st)
          b (newProject st) (toasts st).

Definition setNewProject (n : NewProject.t) (st : State) : State :=
  mkState (projects st) (milestones st) (selectedProject st)
          (isCreatingProject st) n (toasts st).

(** [data || []] *)
Definition orEmpty {A : Type} (data : option (list A)) : list A :=
  match data with
  | Some rows => rows
  | None => []
  end.

(** [fetchProjects] (lines 73-90). *)
Definition fetchProjects (reply : Reply (option (list Project.t))) (st : State) : State :=
  match reply with
  | Success data => setProjects (fun _ => orEmpty data) st
  | Failure => toast (mkToast "Error" "Failed to fetch projects" true) st
  end.

(** [fetchMilestones] (lines 92-105); a failure is only logged. *)
Definition fetchMilestones
    (projectId : string) (reply : Reply (option (list Milestone.t))) (st : State) : State :=
  match reply with
  | Success data => setMilestones (orEmpty data) st
  | Failure => st
  end.

(** [createProject] (lines 107-153): [auth] is the outcome of
    [supabase.auth.getUser()], with the user id if somebody is logged
    in, and [insert] the outcome of the insertion, with the stored
    row. *)
Definition createProject
    (auth : Reply (option string)) (insert : Reply Project.t) (st : State) : State :=
  match auth with
  | Failure => toast (mkToast "Error" "Failed to create project" true) st
  | Success None =>
      toast (mkToast "Authentication required"
                     "Please log in to create projects" true) st
  | Success (Some user) =>
      match insert with
      | Failure => toast (mkToast "Error" "Failed to create project" true) st
      | Success data =>
          let st := setProjects (fun prev => data :: prev) st in
          let st := setIsCreatingProject false st in
          let st := setNewProject NewProject.empty st in
          toast (mkToast "Success" "Project created successfully" false) st
      end
  end.

(** [updateProjectStatus] (lines 155-187). *)
Definition updateProjectStatus
    (projectId status : string) (reply : Reply unit) (st : State) : State :=
  match reply with
  | Failure => toast (mkToast "Error" "Failed to update project status" true) st
  | Success _ =>
      let selected := selectedProject st in
      let st :=
        setProjects
          (fun prev =>
             map (fun p => if String.eqb (Project.id p) projectId
                           then Project.set_status status p else p) prev) st in
      let st :=
        if match selected with
           | Some p => String.eqb (Project.id p) projectId
           | None => false
           end
        then setSelectedProject (option_map (Project.set_status status)) st
        else st in
      toast (mkToast "Success" "Project status updated" false) st
  end.

(** [getStatusColor] (lines 189-197). *)
Definition getStatusColor (status : string) : string :=
  if String.eqb status "completed"
  then "bg-green-500/10 text-green-400 border-green-500/20"
  else if String.eqb status "in_progress"
  then "bg-blue-500/10 text-blue-400 border-blue-500/20"
  else if String.eqb status "on_hold"
  then "bg-yellow-500/10 text-yellow-400 border-yellow-500/20"
  else if String.eqb status "cancelled"
  then "bg-red-500/10 text-red-400 border-red-500/20"
  else "bg-gray-500/10 text-gray-400 border-gray-500/20".

(** [getProjectTypeLabel] (lines 199-208). *)
Definition getProjectTypeLabel (type : string) : string :=
  if String.eqb type "asphalt_paving" then "Asphalt Paving"
  else if String.eqb type "sealcoating" then "Sealcoating"
  else if String.eqb type "crack_filling" then "Crack Filling"
  else if String.eqb type "line_striping" then "Line Striping"
  else if String.eqb type "patching" then "Patching"
  else type.

(** The two filters of [calculateProgress]. *)
Definition ofProject (project : Project.t) (m : Milestone.t) : bool :=
  String.eqb (Milestone.project_id m) (Project.id project).

Definition isCompleted (m : Milestone.t) : bool :=
  String.eqb (Milestone.status m) "completed".

(** [calculateProgress] (lines 210-216), reading the [milestones] of the
    state. *)
Definition calculateProgress (milestones : list Milestone.t) (project : Project.t) : Q :=
  let projectMilestones := filter (ofProject project) milestones in
  if Nat.eqb (length projectMilestones) 0 then 0
  else
    let completedMilestones := filter isCompleted projectMilestones in
    (inject_Z (Z.of_nat (length completedMilestones))
     / inject_Z (Z.of_nat (length projectMilestones))) * 100.

(** The four statistics of the overview tab (lines 241-290) and the
    list of recent projects (line 313). *)
Definition hasStatus (status : string) (p : Project.t) : bool :=
  String.eqb (Project.status p) status.

Definition totalProjects (ps : list Project.t) : nat := length ps.

Definition activeProjects (ps : list Project.t) : nat :=
  length (filter (hasStatus "in_progress") ps).

Definition completedProjects (ps : list Project.t) : nat :=
  length (filter (hasStatus "completed") ps).

Definition totalValue (ps : list Project.t) : Q :=
  fold_left (fun sum p => sum + orZero (Project.estimated_cost p)) ps 0.

Definition recentProjects (ps : list Project.t) : list Project.t := firstn 5 ps.

(** The projects of the "Active Projects" tab (line 351). *)
Definition activeList (ps : list Project.t) : list Project.t :=
  filter (hasStatus "in_progress") ps.

(** What happens on the board: a click on the card of the [n]-th listed
    project (lines 313, 352), the reply to a fetch of the milestones of
    the selected project, the two buttons of the dialog and an edit
    [setNewProject(prev => update(prev))] of its form (lines 540-643),
    and the two callbacks that write to the backend. *)
Inductive Event :=
| ClickProject (n : nat)
| MilestonesFetched (reply : Reply (option (list Milestone.t)))
| OpenDialog
| CancelDialog
| EditDialog (update : NewProject.t -> NewProject.t)
| CreateProject (auth : Reply (option string)) (insert : Reply Project.t)
| UpdateStatus (projectId status : string) (reply : Reply unit).

(** A step of the board. A click selects the project whose card was
    clicked; the milestones fetched are those of the selected project
    (lines 66-70). *)
Definition step (st : State) (ev : Event) : State :=
  match ev with
  | ClickProject n =>
      match nth_error (projects st) n with
      | Some project => setSelectedProject (fun _ => Some project) st
      | None => st
      end
  | MilestonesFetched reply =>
      match selectedProject st with
      | Some p => fetchMilestones (Project.id p) reply st
      | None => st
      end
  | OpenDialog => setIsCreatingProject true st
  | CancelDialog => setIsCreatingProject false st
  | EditDialog update => setNewProject (update (newProject st)) st
  | CreateProject auth insert => createProject auth insert st
  | UpdateStatus projectId status reply =>
      updateProjectStatus projectId status reply st
  end.


End Board.

(** * Fleet tracking

    The status helpers of the [FleetTracking] component
    ([src/unnamed/part_001], lines 13-206). The clock and the date
    parser of the platform are arguments: [now] is the value of
    [Date.now()] in milliseconds, and [getTime s] the value of
    [new Date(s).getTime()], [None] standing for the [NaN] of a string
    that is not a date. A comparison with [NaN] is false. *)

(** [x < y] and [x >= y] on numbers. *)
Definition ltb (x y : Q) : bool := negb (Qle_bool y x).
Definition geb (x y : Q) : bool := Qle_bool y x.

(** [interface FleetAsset] (lines 13-26). *)
Module FleetAsset.
Record t := mk {
  id : string;
  name : string;
  type : string;
  make : string;
  model : string;
  year : Q;
  vin : string;
  license_plate : string;
  registration_expiry : string;
  image_url : string;
  registration_card_url : string;
  created_at : string
}.
End FleetAsset.

(** [interface VehicleDetail] (lines 28-46). *)
Module VehicleDetail.
Record t := mk {
  id : string;
  vehicle_id : string;
  vin : string;
  license_plate : string;
  registration_expiry : string;
  insurance_expiry : string;
  oil_capacity_quarts : Q;
  last_oil_change_date : string;
  last_oil_change_mileage : Q;
  next_oil_change_due_mileage : Q;
  oil_change_interval_miles : Q;
  tire_pressure_front : Q;
  tire_pressure_rear : Q;
  oil_type : string;
  engine_type : string;
  insurance_company : string;
  insurance_policy_number : string
}.
End VehicleDetail.

(** [interface Device] (lines 48-57); the untyped [metadata] is kept as
    its text. *)
Module Device.
Record t := mk {
  id : string;
  name : string;
  type : string;
  status : string;
  last_seen : string;
  user_id : string;
  vehicle_id : string;
  metadata : string
}.
End Device.

Module Fleet.

Definition msPerHour : Q := 1000 * 60 * 60.
Definition msPerDay : Q := 1000 * 60 * 60 * 24.

(** [devices.find(d => d.vehicle_id === vehicle.id)] *)
Definition deviceOf (devices : list Device.t) (vehicle : FleetAsset.t) : option Device.t :=
  find (fun d => String.eqb (Device.vehicle_id d) (FleetAsset.id vehicle)) devices.

(** [getVehicleStatusColor] (lines 170-180). *)
Definition getVehicleStatusColor
    (now : Q) (getTime : string -> option Q)
    (devices : list Device.t) (vehicle : FleetAsset.t) : string :=
  match deviceOf devices vehicle with
  | None => "bg-gray-500/10 text-gray-400 border-gray-500/20"
  | Some device =>
      match getTime (Device.last_seen device) with
      | Some lastSeen =>
          let hoursSinceLastSeen := (now - lastSeen) / msPerHour in
          if ltb hoursSinceLastSeen 1
          then "bg-green-500/10 text-green-400 border-green-500/20"
          else if ltb hoursSinceLastSeen 24
          then "bg-yellow-500/10 text-yellow-400 border-yellow-500/20"
          else "bg-red-500/10 text-red-400 border-red-500/20"
      | None => "bg-red-500/10 text-red-400 border-red-500/20"
      end
  end.

(** [getVehicleStatus] (lines 182-192). *)
Definition getVehicleStatus
    (now : Q) (getTime : string -> option Q)
    (devices : list Device.t) (vehicle : FleetAsset.t) : string :=
  match deviceOf devices vehicle with
  | None => "Offline"
  | Some device =>
      match getTime (Device.last_seen device) with
      | Some lastSeen =>
          let hoursSinceLastSeen := (now - lastSeen) / msPerHour in
          if ltb hoursSinceLastSeen 1 then "Active"
          else if ltb hoursSinceLastSeen 24 then "Idle"
          else "Offline"
      | None => "Offline"
      end
  end.

(** [Date.now() - lastSeen.getTime()] (lines 174-175, 186-187): the
    milliseconds since the tracker of the vehicle, the first device
    registered for it, was last seen; [None] without a tracker or
    without a readable date. *)
Definition sinceLastSeen
    (now : Q) (getTime : string -> option Q)
    (devices : list Device.t) (vehicle : FleetAsset.t) : option Q :=
  match deviceOf devices vehicle with
  | Some device =>
      match getTime (Device.last_seen device) with
      | Some lastSeen => Some (now - lastSeen)
      | None => None
      end
  | None => None
  end.

(** [isMaintenanceDue] (lines 194-199); a mileage of 0 is falsy. *)
Definition isMaintenanceDue (details : VehicleDetail.t) : bool :=
  if Qeq_bool (VehicleDetail.next_oil_change_due_mileage details) 0 then false
  else
    let estimatedCurrentMileage := VehicleDetail.last_oil_change_mileage details * 1.1 in
    geb estimatedCurrentMileage (VehicleDetail.next_oil_change_due_mileage details).

(** [isRegistrationExpiring] (lines 201-206); the empty string is
    falsy. *)
Definition isRegistrationExpiring
    (now : Q) (getTime : string -> option Q) (vehicle : FleetAsset.t) : bool :=
  if String.eqb (FleetAsset.registration_expiry vehicle) "" then false
  else
    match getTime (FleetAsset.registration_expiry vehicle) with
    | Some expiry =>
        let daysUntilExpiry := (expiry - now) / msPerDay in
        Qle_bool daysUntilExpiry 30
    | None => false
    end.

End Fleet.

(** * Properties *)

(** ** Facts about the primitives *)

Lemma gtb_true_iff (x y : Q) : (x >? y) = true <-> y < x.
Proof.
  unfold gtb. rewrite Bool.negb_true_iff, <- Bool.not_true_iff_false, Qle_bool_iff.
  split; [apply Qnot_le_lt | apply Qlt_not_le].
Qed.

Lemma gtb_false_iff (x y : Q) : (x >? y) = false <-> x <= y.
Proof.
  unfold gtb. rewrite Bool.negb_false_iff. apply Qle_bool_iff.
Qed.

Lemma gtb_reflect (x y : Q) : Bool.reflect (y < x) (x >? y).
Proof.
  destruct (x >? y) eqn:E; constructor.
  - now apply gtb_true_iff.
  - apply gtb_false_iff in E. now apply Qle_not_lt.
Qed.

#[export] Instance gtb_compat : Proper (Qeq ==> Qeq ==> eq) gtb.
Proof.
  intros x x' Hx y y' Hy. unfold gtb. now rewrite Hx, Hy.
Qed.

#[export] Instance ceil_compat : Proper (Qeq ==> Qeq) Math.ceil.
Proof.
  intros x y H. unfold Math.ceil. now rewrite H.
Qed.

Lemma ceil_above (x : Q) : x <= Math.ceil x.
Proof. apply Qle_ceiling. Qed.

Lemma ceil_monotone (x y : Q) : x <= y -> Math.ceil x <= Math.ceil y.
Proof.
  intros H. unfold Math.ceil. rewrite <- Zle_Qle. now apply Qceiling_resp_le.
Qed.

Lemma ceil_integer (z : Z) : Math.ceil (inject_Z z) = inject_Z z.
Proof. unfold Math.ceil. now rewrite Qceiling_Z. Qed.

Lemma ceil_nonneg (x : Q) : 0 <= x -> 0 <= Math.ceil x.
Proof.
  intros H. apply Qle_trans with x; [exact H | apply ceil_above].
Qed.

Lemma max_floor (x : Q) : 4 <= Math.max x 4.
Proof. apply Q.le_max_r. Qed.

Lemma reduce_sum_values (c : Costs.t) :
  reduce_sum (Costs.values c) ==
  Costs.sealMasterPMM c + Costs.sand c + Costs.prepSeal c + Costs.fastDry c
  + Costs.crackMaster c.
Proof.
  unfold reduce_sum, Costs.values. simpl. ring.
Qed.

(** Linear arithmetic once the divisions by constants are products. *)
Ltac qarith := unfold Qdiv in *; cbn [Qinv Qnum Qden] in *; lra.

(** Case analysis on a guard [x > y] of the source. *)
Ltac on_guard x y :=
  let E := fresh "G" in
  destruct (gtb_reflect x y) as [E | E];
  [ | apply Qnot_lt_le in E ].

(** ** The quantities and costs, field by field *)

Section Fields.

Variable d : EstimateData.

(** All four guards of the quantities part, at once. *)
Local Ltac by_guards :=
  unfold materialQuantities, totalPMM; cbv zeta;
  destruct (squareFootage d >? 0), (numberOfCoats d >? 1),
    (oilSpotArea d >? 0), (linearFootage d >? 0);
  simpl; reflexivity.

Lemma sealMasterPMM_eq :
  Materials.sealMasterPMM (materialQuantities d) = totalPMM d.
Proof. by_guards. Qed.

Lemma sand_eq :
  Materials.sand (materialQuantities d) ==
  (totalPMM d / 100) * APPLICATION_RATES.sandMixRatio.
Proof. by_guards. Qed.

Lemma water_eq :
  Materials.water (materialQuantities d) ==
  totalPMM d * APPLICATION_RATES.waterRatio.
Proof. by_guards. Qed.

Lemma fastDry_eq :
  Materials.fastDry (materialQuantities d) == (totalPMM d / 125) * 2.
Proof. by_guards. Qed.

Lemma prepSeal_eq :
  Materials.prepSeal (materialQuantities d) =
  if oilSpotArea d >? 0 then Math.ceil (oilSpotArea d / 175) else 0.
Proof. by_guards. Qed.

Lemma crackMaster_eq :
  Materials.crackMaster (materialQuantities d) =
  if linearFootage d >? 0
  then Math.ceil ((linearFootage d * crackMultiplier (crackSeverity d)) / 100)
  else 0.
Proof. by_guards. Qed.

Lemma totalPMM_nonneg : 0 <= totalPMM d.
Proof.
  unfold totalPMM, APPLICATION_RATES.sealcoat.firstCoat,
    APPLICATION_RATES.sealcoat.additionalCoats; cbv zeta.
  on_guard (squareFootage d) 0; [ | lra ].
  on_guard (numberOfCoats d) 1; [ | lra ].
  assert (0 <= squareFootage d * (numberOfCoats d - 1))
    by (apply Qmult_le_0_compat; lra).
  lra.
Qed.

End Fields.

(** The two components of [calculateMaterials]. *)
Lemma calculateMaterials_quantities (d : EstimateData) (f : Materials.t -> Q) :
  (forall v m, f (Materials.set_totalMaterialCost v m) = f m) ->
  f (fst (calculateMaterials d)) = f (materialQuantities d).
Proof. intros Hf. unfold calculateMaterials. simpl. apply Hf. Qed.

Lemma calculateMaterials_costs (d : EstimateData) :
  snd (calculateMaterials d) = materialCosts (materialQuantities d).
Proof. reflexivity. Qed.

Lemma calculateMaterials_total (d : EstimateData) :
  Materials.totalMaterialCost (fst (calculateMaterials d)) =
  reduce_sum (Costs.values (snd (calculateMaterials d))).
Proof. reflexivity. Qed.

(** ** Labor *)

Lemma laborHours_eq (d : EstimateData) :
  Labor.laborHours (calculateLaborAndEquipment d) == Math.max (workedHours d) 4.
Proof.
  unfold calculateLaborAndEquipment, workedHours, Math.max; cbv zeta. simpl.
  apply Q.max_compat; [ | reflexivity ].
  destruct (squareFootage d >? 0), (linearFootage d >? 0); ring.
Qed.

Lemma workedHours_nonneg (d : EstimateData) : 0 <= workedHours d.
Proof.
  unfold workedHours.
  on_guard (squareFootage d) 0; on_guard (linearFootage d) 0; qarith.
Qed.

Lemma laborHours_floor (d : EstimateData) :
  4 <= Labor.laborHours (calculateLaborAndEquipment d).
Proof. rewrite laborHours_eq. apply max_floor. Qed.

Lemma laborCost_eq (d : EstimateData) :
  Labor.laborCost (calculateLaborAndEquipment d) =
  Labor.laborHours (calculateLaborAndEquipment d)
  * BUSINESS_CONFIG.blendedLaborRate * 3.
Proof. reflexivity. Qed.

Lemma equipmentCost_eq (d : EstimateData) :
  Labor.equipmentCost (calculateLaborAndEquipment d) =
  Labor.laborHours (calculateLaborAndEquipment d) * 50.
Proof. reflexivity. Qed.

Lemma fuelCost_eq (d : EstimateData) :
  Labor.fuelCost (calculateLaborAndEquipment d) ==
  travelDistance d * 0.6.
Proof.
  unfold calculateLaborAndEquipment; cbv zeta. simpl. field.
Qed.

Lemma totalLabor_eq (d : EstimateData) :
  Labor.totalLabor (calculateLaborAndEquipment d) =
  Labor.laborCost (calculateLaborAndEquipment d)
  + Labor.equipmentCost (calculateLaborAndEquipment d)
  + Labor.fuelCost (calculateLaborAndEquipment d).
Proof. reflexivity. Qed.

(** ** The estimate *)

(** C1. For every job (in particular every job whose numeric fields are
    non-negative and whose profit margin lies between 0 and 100),
    [generateEstimate] stores an estimate made of the materials and labor
    breakdowns of that job, in which the subtotal is the total material
    cost plus the total labor, the overhead is the subtotal times 0.15,
    the profit is the subtotal times the profit margin over 100, and the
    total is subtotal plus overhead plus profit. *)
Theorem generateEstimate_totals (now : string) (d : EstimateData) :
  exists e,
    estimateOf now d = Some e /\
    Estimate.materials e = fst (calculateMaterials d) /\
    Estimate.labor e = calculateLaborAndEquipment d /\
    Estimate.subtotal e =
      Materials.totalMaterialCost (Estimate.materials e)
      + Labor.totalLabor (Estimate.labor e) /\
    Estimate.overhead e = Estimate.subtotal e * 0.15 /\
    Estimate.profit e = Estimate.subtotal e * (profitMargin d / 100) /\
    Estimate.total e =
      Estimate.subtotal e + Estimate.overhead e + Estimate.profit e.
Proof.
  exists (buildEstimate now d). repeat split.
Qed.

(** ** Oil spot primer *)

(** C4. When the oil spot area is positive, the primer quantity is the
    ceiling of the area over 175 (raw gallons, not divided by the bucket
    size of 5) and its cost is that integer times the bucket price of 50;
    when the area is 0, quantity and cost are 0. *)
Theorem primer_quantity_and_cost (d : EstimateData) :
  (0 < oilSpotArea d ->
     Materials.prepSeal (fst (calculateMaterials d)) =
       inject_Z (Qceiling (oilSpotArea d / 175)) /\
     Costs.prepSeal (snd (calculateMaterials d)) ==
       inject_Z (Qceiling (oilSpotArea d / 175)) * 50) /\
  (oilSpotArea d == 0 ->
     Materials.prepSeal (fst (calculateMaterials d)) = 0 /\
     Costs.prepSeal (snd (calculateMaterials d)) == 0).
Proof.
  rewrite (calculateMaterials_quantities d Materials.prepSeal) by reflexivity.
  rewrite calculateMaterials_costs. unfold materialCosts; simpl.
  rewrite prepSeal_eq. unfold MATERIAL_COSTS.prepSeal5gal.
  split; intros H.
  - apply gtb_true_iff in H. rewrite H. split; [ reflexivity | ].
    unfold Math.ceil. ring.
  - assert (G : (oilSpotArea d >? 0) = false) by (apply gtb_false_iff; lra).
    rewrite G. split; [ reflexivity | ring ].
Qed.

Lemma primer_quantity_and_cost_witness :
  (Materials.prepSeal (fst (calculateMaterials oilSpotJob)) = 2 /\
   Costs.prepSeal (snd (calculateMaterials oilSpotJob)) == 100) /\
  (Materials.prepSeal (fst (calculateMaterials scenario1)) = 0 /\
   Costs.prepSeal (snd (calculateMaterials scenario1)) == 0).
Proof.
  split.
  - destruct (proj1 (primer_quantity_and_cost oilSpotJob)) as [Hq Hc].
    + reflexivity.
    + split; [ exact Hq | rewrite Hc; reflexivity ].
  - apply (proj2 (primer_quantity_and_cost scenario1)). reflexivity.
Defined.

(** ** Minimum billable hours *)

(** C5. The labor hours are the maximum of the worked hours (2 per 1000
    square feet when there are any, plus 1 per 100 linear feet when there
    are any) and 4; they are therefore never below 4, and exactly 4 when
    square and linear footage are both 0. *)
Theorem laborHours_minimum (d : EstimateData) :
  Labor.laborHours (calculateLaborAndEquipment d) ==
    Qmax ((if squareFootage d >? 0 then (squareFootage d / 1000) * 2 else 0)
          + (if linearFootage d >? 0 then linearFootage d / 100 else 0)) 4 /\
  4 <= Labor.laborHours (calculateLaborAndEquipment d) /\
  (squareFootage d == 0 -> linearFootage d == 0 ->
   Labor.laborHours (calculateLaborAndEquipment d) == 4).
Proof.
  split; [ apply laborHours_eq | ].
  split; [ apply laborHours_floor | ].
  intros Hs Hl. rewrite laborHours_eq. unfold workedHours.
  rewrite Hs, Hl. unfold Math.max. apply Q.max_r. simpl. lra.
Qed.

Lemma laborHours_minimum_witness :
  Labor.laborHours (calculateLaborAndEquipment scenario2) == 4.
Proof.
  apply (proj2 (proj2 (laborHours_minimum scenario2))); reflexivity.
Defined.

(** ** Crack filler *)

Lemma crackMultiplier_cases (s : string) :
  (s = "severe" /\ crackMultiplier s = 1.5) \/
  (s = "moderate" /\ crackMultiplier s = 1.2) \/
  (s <> "severe" /\ s <> "moderate" /\ crackMultiplier s = 1.0).
Proof.
  unfold crackMultiplier.
  destruct (String.eqb_spec s "severe") as [-> | Hs]; [ now left | ].
  destruct (String.eqb_spec s "moderate") as [-> | Hm]; [ now right; left | ].
  now right; right.
Qed.

Lemma crackMultiplier_fallback (s : string) :
  s <> "severe" -> s <> "moderate" -> crackMultiplier s = 1.0.
Proof.
  intros Hs Hm.
  destruct (crackMultiplier_cases s) as [[E _] | [[E _] | [_ [_ E]]]];
    [ contradiction | contradiction | exact E ].
Qed.

Lemma crackMultiplier_bounds (s : string) :
  1.0 <= crackMultiplier s <= 1.5.
Proof.
  destruct (crackMultiplier_cases s) as [[_ E] | [[_ E] | [_ [_ E]]]];
    rewrite E; split; lra.
Qed.

Lemma crackBoxes_positive_length (d : EstimateData) :
  0 < linearFootage d ->
  Materials.crackMaster (fst (calculateMaterials d)) =
  Math.ceil ((linearFootage d * crackMultiplier (crackSeverity d)) / 100).
Proof.
  intros H.
  rewrite (calculateMaterials_quantities d Materials.crackMaster) by reflexivity.
  rewrite crackMaster_eq. apply gtb_true_iff in H. now rewrite H.
Qed.

(** C6. With a positive linear footage the number of crack-filler boxes
    is the ceiling of (linear footage times m) over 100, where m is 1.5
    for severe, 1.2 for moderate and 1.0 for light cracks; 500 feet of
    severe cracks are an adjusted length of 750 and need exactly 8
    boxes. *)
Theorem crackFiller_boxes :
  (forall d : EstimateData,
      0 < linearFootage d ->
      (crackSeverity d = "severe" ->
       Materials.crackMaster (fst (calculateMaterials d)) =
         inject_Z (Qceiling ((linearFootage d * 1.5) / 100))) /\
      (crackSeverity d = "moderate" ->
       Materials.crackMaster (fst (calculateMaterials d)) =
         inject_Z (Qceiling ((linearFootage d * 1.2) / 100))) /\
      (crackSeverity d = "light" ->
       Materials.crackMaster (fst (calculateMaterials d)) =
         inject_Z (Qceiling ((linearFootage d * 1.0) / 100)))) /\
  linearFootage scenario3 * crackMultiplier (crackSeverity scenario3) == 750 /\
  Materials.crackMaster (fst (calculateMaterials scenario3)) == 8.
Proof.
  split; [ | split; reflexivity ].
  intros d H. rewrite (crackBoxes_positive_length d H).
  repeat split; intros E; rewrite E; reflexivity.
Qed.

Lemma crackFiller_boxes_witness :
  Materials.crackMaster (fst (calculateMaterials fullJob)) = 3.
Proof.
  refine (proj1 (proj2 (proj1 crackFiller_boxes fullJob _)) _); reflexivity.
Defined.

Lemma updateField_severity (s : string) (d : EstimateData) :
  crackSeverity (updateField (CrackSeverity s) d) = s /\
  linearFootage (updateField (CrackSeverity s) d) = linearFootage d /\
  squareFootage (updateField (CrackSeverity s) d) = squareFootage d /\
  numberOfCoats (updateField (CrackSeverity s) d) = numberOfCoats d /\
  oilSpotArea (updateField (CrackSeverity s) d) = oilSpotArea d.
Proof. destruct d; repeat split. Qed.

(** C8. For a fixed positive linear footage, all other fields equal, the
    number of crack-filler boxes grows with the severity: light needs at
    most as many boxes as moderate, and moderate at most as many as
    severe. *)
Theorem crackFiller_boxes_monotone (d : EstimateData) :
  0 < linearFootage d ->
  let boxes s :=
    Materials.crackMaster (fst (calculateMaterials (updateField (CrackSeverity s) d))) in
  boxes "light" <= boxes "moderate" /\ boxes "moderate" <= boxes "severe".
Proof.
  intros H boxes.
  assert (E : forall s, boxes s =
                Math.ceil ((linearFootage d * crackMultiplier s) / 100)).
  { intros s. unfold boxes.
    destruct (updateField_severity s d) as (Es & El & _).
    rewrite crackBoxes_positive_length by (rewrite El; exact H).
    now rewrite Es, El. }
  rewrite !E.
  change (crackMultiplier "light") with 1.0.
  change (crackMultiplier "moderate") with 1.2.
  change (crackMultiplier "severe") with 1.5.
  split; apply ceil_monotone; qarith.
Qed.

Lemma crackFiller_boxes_monotone_witness :
  let boxes s :=
    Materials.crackMaster
      (fst (calculateMaterials (updateField (CrackSeverity s) scenario3))) in
  boxes "light" <= boxes "moderate" /\ boxes "moderate" <= boxes "severe".
Proof.
  apply (crackFiller_boxes_monotone scenario3). reflexivity.
Defined.

(** C9. A crack severity that is neither "severe" nor "moderate" (the
    empty string, say) gets the multiplier 1.0, and [calculateMaterials],
    a total function, returns for it what it returns for "light". *)
Theorem unknown_severity_is_light (d : EstimateData) (s : string) :
  s <> "severe" -> s <> "moderate" ->
  crackMultiplier s = 1.0 /\
  calculateMaterials (updateField (CrackSeverity s) d) =
  calculateMaterials (updateField (CrackSeverity "light") d).
Proof.
  intros Hs Hm. split; [ now apply crackMultiplier_fallback | ].
  destruct d. unfold calculateMaterials, materialQuantities; simpl.
  now rewrite (crackMultiplier_fallback s Hs Hm).
Qed.

Lemma unknown_severity_is_light_witness :
  crackMultiplier "" = 1.0 /\
  calculateMaterials (updateField (CrackSeverity "") scenario3) =
  calculateMaterials (updateField (CrackSeverity "light") scenario3).
Proof.
  apply (unknown_severity_is_light scenario3 ""); discriminate.
Defined.

(** ** Material costs *)

Lemma materialCosts_water (w : Q) (m : Materials.t) :
  materialCosts (Materials.set_water w m) = materialCosts m.
Proof. reflexivity. Qed.

(** C10. The water quantity, 0.20 times the concentrate gallons, is
    stored in the materials but has no price: the total material cost is
    the sum of the sealant, sand, prep-seal, fast-dry and crack-filler
    costs, and replacing the water quantity by any other value leaves
    every cost and their total unchanged. *)
Theorem water_is_unpriced (d : EstimateData) :
  let m := fst (calculateMaterials d) in
  let c := snd (calculateMaterials d) in
  Materials.water m == 0.20 * Materials.sealMasterPMM m /\
  Materials.totalMaterialCost m ==
    Costs.sealMasterPMM c + Costs.sand c + Costs.prepSeal c
    + Costs.fastDry c + Costs.crackMaster c /\
  forall w : Q,
    materialCosts (Materials.set_water w m) = c /\
    reduce_sum (Costs.values (materialCosts (Materials.set_water w m))) =
      Materials.totalMaterialCost m.
Proof.
  intros m c. split; [ | split ].
  - unfold m.
    rewrite (calculateMaterials_quantities d Materials.water) by reflexivity.
    rewrite (calculateMaterials_quantities d Materials.sealMasterPMM)
      by reflexivity.
    rewrite water_eq, sealMasterPMM_eq.
    unfold APPLICATION_RATES.waterRatio. ring.
  - unfold m, c. rewrite calculateMaterials_total. apply reduce_sum_values.
  - intros w. split; reflexivity.
Qed.

Lemma materialCosts_nonneg (d : EstimateData) :
  let c := snd (calculateMaterials d) in
  0 <= Costs.sealMasterPMM c /\ 0 <= Costs.sand c /\ 0 <= Costs.prepSeal c /\
  0 <= Costs.fastDry c /\ 0 <= Costs.crackMaster c.
Proof.
  cbv zeta. rewrite calculateMaterials_costs. unfold materialCosts; simpl.
  pose proof (totalPMM_nonneg d) as Hpmm.
  unfold MATERIAL_COSTS.sealMasterPMM, MATERIAL_COSTS.sand50lb,
    MATERIAL_COSTS.prepSeal5gal, MATERIAL_COSTS.fastDry5gal,
    MATERIAL_COSTS.crackMaster30lb.
  repeat split.
  - rewrite sealMasterPMM_eq. lra.
  - assert (0 <= Math.ceil (Materials.sand (materialQuantities d) / 50)).
    { apply ceil_nonneg. rewrite sand_eq.
      unfold APPLICATION_RATES.sandMixRatio. qarith. }
    lra.
  - rewrite prepSeal_eq.
    on_guard (oilSpotArea d) 0; [ | lra ].
    assert (0 <= Math.ceil (oilSpotArea d / 175))
      by (apply ceil_nonneg; qarith).
    lra.
  - assert (0 <= Math.ceil (Materials.fastDry (materialQuantities d) / 5)).
    { apply ceil_nonneg. rewrite fastDry_eq. qarith. }
    lra.
  - rewrite crackMaster_eq.
    on_guard (linearFootage d) 0; [ | lra ].
    assert (0 <= Math.ceil
                   (linearFootage d * crackMultiplier (crackSeverity d) / 100)).
    { apply ceil_nonneg.
      pose proof (crackMultiplier_bounds (crackSeverity d)) as [Hlo _].
      assert (0 <= linearFootage d * crackMultiplier (crackSeverity d))
        by (apply Qmult_le_0_compat; lra).
      qarith. }
    lra.
Qed.

Lemma totalMaterialCost_nonneg (d : EstimateData) :
  0 <= Materials.totalMaterialCost (fst (calculateMaterials d)).
Proof.
  rewrite calculateMaterials_total, reduce_sum_values.
  pose proof (materialCosts_nonneg d) as (H1 & H2 & H3 & H4 & H5).
  cbv zeta in *. lra.
Qed.

Lemma laborCosts_nonneg (d : EstimateData) :
  0 <= Labor.laborCost (calculateLaborAndEquipment d) /\
  0 <= Labor.equipmentCost (calculateLaborAndEquipment d).
Proof.
  rewrite laborCost_eq, equipmentCost_eq.
  pose proof (laborHours_floor d) as H.
  unfold BUSINESS_CONFIG.blendedLaborRate. split; lra.
Qed.

(** C2. For every valid job (numeric fields at least 0, one to three
    coats, a listed severity, profit margin between 0 and 100) every cost
    in the estimate is at least 0: the five material line costs, labor,
    equipment and fuel cost, overhead and profit; and the total is at
    least the subtotal, which is exactly the total material cost plus the
    total labor. *)
Theorem estimate_costs_nonneg (now : string) (d : EstimateData) :
  validJob d ->
  exists e,
    estimateOf now d = Some e /\
    0 <= Costs.sealMasterPMM (Estimate.costs e) /\
    0 <= Costs.sand (Estimate.costs e) /\
    0 <= Costs.prepSeal (Estimate.costs e) /\
    0 <= Costs.fastDry (Estimate.costs e) /\
    0 <= Costs.crackMaster (Estimate.costs e) /\
    0 <= Labor.laborCost (Estimate.labor e) /\
    0 <= Labor.equipmentCost (Estimate.labor e) /\
    0 <= Labor.fuelCost (Estimate.labor e) /\
    0 <= Estimate.overhead e /\
    0 <= Estimate.profit e /\
    Estimate.subtotal e ==
      Materials.totalMaterialCost (Estimate.materials e)
      + Labor.totalLabor (Estimate.labor e) /\
    Materials.totalMaterialCost (Estimate.materials e)
      + Labor.totalLabor (Estimate.labor e) <= Estimate.subtotal e /\
    Estimate.subtotal e <= Estimate.total e.
Proof.
  intros ((_ & _ & _ & _ & _ & Htd & Hpm) & _ & _ & Hpm100).
  exists (buildEstimate now d). split; [ reflexivity | ].
  change (Estimate.costs (buildEstimate now d)) with (snd (calculateMaterials d)).
  change (Estimate.labor (buildEstimate now d)) with (calculateLaborAndEquipment d).
  change (Estimate.materials (buildEstimate now d)) with (fst (calculateMaterials d)).
  pose proof (materialCosts_nonneg d) as (H1 & H2 & H3 & H4 & H5);
    cbv zeta in *.
  pose proof (laborCosts_nonneg d) as (Hl & He).
  pose proof (totalMaterialCost_nonneg d) as Htm.
  assert (Hf : 0 <= Labor.fuelCost (calculateLaborAndEquipment d))
    by (rewrite fuelCost_eq; lra).
  set (subtotal := Materials.totalMaterialCost (fst (calculateMaterials d))
                   + Labor.totalLabor (calculateLaborAndEquipment d)).
  assert (Hsub : 0 <= subtotal)
    by (unfold subtotal; rewrite totalLabor_eq; lra).
  change (Estimate.subtotal (buildEstimate now d)) with subtotal.
  change (Estimate.overhead (buildEstimate now d)) with (subtotal * 0.15).
  change (Estimate.profit (buildEstimate now d))
    with (subtotal * (profitMargin d / 100)).
  change (Estimate.total (buildEstimate now d))
    with (subtotal + subtotal * 0.15 + subtotal * (profitMargin d / 100)).
  assert (Hprofit : 0 <= subtotal * (profitMargin d / 100))
    by (apply Qmult_le_0_compat; [ exact Hsub | qarith ]).
  repeat split; try assumption; try lra.
Qed.

Lemma estimate_costs_nonneg_witness :
  exists e,
    estimateOf "2025-06-01T12:00:00.000Z" fullJob = Some e /\
    0 <= Labor.fuelCost (Estimate.labor e) /\
    0 <= Estimate.profit e /\
    Estimate.subtotal e <= Estimate.total e.
Proof.
  destruct (estimate_costs_nonneg "2025-06-01T12:00:00.000Z" fullJob)
    as (e & He & H).
  - repeat split; try (vm_compute; discriminate).
    + exists 2. split; [ right; left; reflexivity | reflexivity ].
    + right; left; reflexivity.
  - exists e. split; [ exact He | ]. repeat split; apply H.
Defined.

(** ** Jobs outside the documented domain *)

(** The job typed with minus signs is outside the documented domain, yet
    [generateEstimate] does not reject it: it stores an estimate, whose
    materials are those of the job with every quantity 0. *)
Lemma negativeJob_is_estimated :
  invalidJob negativeJob /\
  ~ rejected "2025-06-01T12:00:00.000Z" negativeJob /\
  exists e,
    estimateOf "2025-06-01T12:00:00.000Z" negativeJob = Some e /\
    Estimate.materials e = fst (calculateMaterials scenario2).
Proof.
  split; [ | split ].
  - left. intros (H & _). vm_compute in H. now apply H.
  - discriminate.
  - eexists. split; reflexivity.
Qed.

Lemma nonpositive_guard (x : Q) : x <= 0 -> (x >? 0) = false.
Proof. apply gtb_false_iff. Qed.

(** C3, as the code has it. The engine validates nothing: for every job,
    also one with negative fields or values outside the enumerated
    domains, [generateEstimate] computes and stores the estimate. A
    square footage, linear footage or oil spot area that is negative
    gives the estimate of the same job with that field 0, its lines being
    skipped by the [> 0] guards. *)
Theorem generateEstimate_never_rejects (now : string) (d : EstimateData) :
  ~ rejected now d /\
  estimateOf now d = Some (buildEstimate now d) /\
  (squareFootage d <= 0 ->
   buildEstimate now d = buildEstimate now (updateField (SquareFootage 0) d)) /\
  (linearFootage d <= 0 ->
   buildEstimate now d = buildEstimate now (updateField (LinearFootage 0) d)) /\
  (oilSpotArea d <= 0 ->
   buildEstimate now d = buildEstimate now (updateField (OilSpotArea 0) d)).
Proof.
  split; [ discriminate | ]. split; [ reflexivity | ].
  repeat split; intros H; apply nonpositive_guard in H;
    destruct d; simpl in H;
    unfold buildEstimate, calculateMaterials, materialQuantities,
      calculateLaborAndEquipment;
    cbn [squareFootage linearFootage oilSpotArea updateField];
    rewrite H; reflexivity.
Qed.

Lemma generateEstimate_never_rejects_witness :
  buildEstimate "2025-06-01T12:00:00.000Z" negativeJob =
    buildEstimate "2025-06-01T12:00:00.000Z"
      (updateField (SquareFootage 0) negativeJob) /\
  buildEstimate "2025-06-01T12:00:00.000Z" negativeJob =
    buildEstimate "2025-06-01T12:00:00.000Z"
      (updateField (LinearFootage 0) negativeJob) /\
  buildEstimate "2025-06-01T12:00:00.000Z" negativeJob =
    buildEstimate "2025-06-01T12:00:00.000Z"
      (updateField (OilSpotArea 0) negativeJob).
Proof.
  pose proof (generateEstimate_never_rejects
                "2025-06-01T12:00:00.000Z" negativeJob)
    as (_ & _ & Hsq & Hlf & Hoil).
  split; [ apply Hsq | split; [ apply Hlf | apply Hoil ] ];
    vm_compute; discriminate.
Defined.

(** The travel distance has no guard: a negative distance comes out as a
    negative fuel cost. *)
Lemma negative_travel_negative_fuel (d : EstimateData) :
  travelDistance d < 0 ->
  Labor.fuelCost (calculateLaborAndEquipment d) < 0.
Proof. intros H. rewrite fuelCost_eq. lra. Qed.

(** The job with minus signs is what the form holds after four edits of
    the initial state and a choice of project type. *)
Lemma negativeJob_reachable :
  estimateData
    (fold_left (fun st fv => handleInputChange fv st)
       [ProjectType "sealcoating"; SquareFootage (-5); LinearFootage (-5);
        OilSpotArea (-5); TravelDistance (-30)]
       initialState) = negativeJob.
Proof. reflexivity. Qed.

(** Example scenario 2: with every quantity 0 the materials cost nothing,
    the labor is the 4 hour minimum, and the total is labor plus
    equipment for 4 hours, marked up by overhead and a 20 percent
    margin. *)
Lemma scenario2_total (now : string) :
  let e := buildEstimate now scenario2 in
  Materials.totalMaterialCost (Estimate.materials e) == 0 /\
  Labor.laborHours (Estimate.labor e) == 4 /\
  Estimate.total e ==
    (4 * BUSINESS_CONFIG.blendedLaborRate * 3 + 4 * 50) * (1 + 0.15 + 0.20).
Proof. repeat split. Qed.

(** ** Example scenario 1 *)

(** The material cost of scenario 1 is not the sealant cost plus one bag
    of sand: the fast-dry additive, 0.2304 gallons, is charged as one
    bucket. *)
Lemma scenario1_cost_is_not_sealant_plus_sand :
  ~ Materials.totalMaterialCost (fst (calculateMaterials scenario1)) ==
      (squareFootage scenario1 * APPLICATION_RATES.sealcoat.firstCoat)
      * MATERIAL_COSTS.sealMasterPMM
      + 1 * MATERIAL_COSTS.sand50lb.
Proof.
  intros H. vm_compute in H. discriminate H.
Qed.

(** C7, as the code has it. For 1000 square feet, one coat, everything
    else 0 and a margin of 20 percent: 14.4 gallons of sealant, 43.2
    pounds of sand charged as 1 bag, 2.88 gallons of water, 0.2304 gallons
    of fast-dry additive charged as 1 bucket; the total material cost is
    the first-coat gallons times the sealant price plus one bag of sand
    plus one bucket of additive; the 2 hours worked are raised to the
    minimum of 4. *)
Theorem scenario1_breakdown :
  let m := fst (calculateMaterials scenario1) in
  let c := snd (calculateMaterials scenario1) in
  let l := calculateLaborAndEquipment scenario1 in
  Materials.sealMasterPMM m == 14.4 /\
  Materials.sand m == 43.2 /\
  Math.ceil (Materials.sand m / 50) == 1 /\
  Costs.sand c == 1 * MATERIAL_COSTS.sand50lb /\
  Materials.water m == 2.88 /\
  Materials.fastDry m == 0.2304 /\
  Costs.fastDry c == 1 * MATERIAL_COSTS.fastDry5gal /\
  Materials.totalMaterialCost m ==
    (squareFootage scenario1 * APPLICATION_RATES.sealcoat.firstCoat)
    * MATERIAL_COSTS.sealMasterPMM
    + 1 * MATERIAL_COSTS.sand50lb + 1 * MATERIAL_COSTS.fastDry5gal /\
  workedHours scenario1 == 2 /\
  Labor.laborHours l == 4.
Proof.
  repeat split.
Qed.

(** * Further properties of the calculator *)

(** ** Which lines the results card shows *)

Lemma totalPMM_positive (d : EstimateData) :
  0 < squareFootage d -> 0 < totalPMM d.
Proof.
  intros H. unfold totalPMM, APPLICATION_RATES.sealcoat.firstCoat,
    APPLICATION_RATES.sealcoat.additionalCoats; cbv zeta.
  apply gtb_true_iff in H. rewrite H. apply gtb_true_iff in H.
  on_guard (numberOfCoats d) 1; [ | lra ].
  assert (0 < squareFootage d * (numberOfCoats d - 1))
    by (apply Qmult_lt_0_compat; lra).
  lra.
Qed.

Lemma totalPMM_zero (d : EstimateData) :
  squareFootage d <= 0 -> totalPMM d = 0.
Proof.
  intros H. unfold totalPMM; cbv zeta. now rewrite (nonpositive_guard _ H).
Qed.

Lemma ceil_positive (x : Q) : 0 < x -> 0 < Math.ceil x.
Proof.
  intros H. apply Qlt_le_trans with x; [ exact H | apply ceil_above ].
Qed.

Lemma ceil_zero (x : Q) : x == 0 -> Math.ceil x == 0.
Proof. intros H. rewrite H. reflexivity. Qed.

(** The five guards of the grid, in terms of the form. *)
Lemma line_guards (now : string) (d : EstimateData) :
  let e := buildEstimate now d in
  (Materials.sealMasterPMM (Estimate.materials e) >? 0) = (squareFootage d >? 0) /\
  (Materials.sand (Estimate.materials e) >? 0) = (squareFootage d >? 0) /\
  (Costs.prepSeal (Estimate.costs e) >? 0) = (oilSpotArea d >? 0) /\
  (Costs.fastDry (Estimate.costs e) >? 0) = (squareFootage d >? 0) /\
  (Costs.crackMaster (Estimate.costs e) >? 0) = (linearFootage d >? 0).
Proof.
  cbv zeta.
  change (Estimate.materials (buildEstimate now d)) with (fst (calculateMaterials d)).
  change (Estimate.costs (buildEstimate now d)) with (materialCosts (materialQuantities d)).
  rewrite (calculateMaterials_quantities d Materials.sealMasterPMM) by reflexivity.
  rewrite (calculateMaterials_quantities d Materials.sand) by reflexivity.
  unfold materialCosts; simpl.
  rewrite sealMasterPMM_eq, sand_eq, fastDry_eq, prepSeal_eq, crackMaster_eq.
  unfold MATERIAL_COSTS.prepSeal5gal, MATERIAL_COSTS.fastDry5gal,
    MATERIAL_COSTS.crackMaster30lb, APPLICATION_RATES.sandMixRatio.
  assert (Hsq : forall x : Q,
             (0 < totalPMM d -> 0 < x) -> (totalPMM d = 0 -> x <= 0) ->
             (x >? 0) = (squareFootage d >? 0)).
  { intros x Hpos Hzero. on_guard (squareFootage d) 0.
    - apply gtb_true_iff, Hpos. now apply totalPMM_positive.
    - apply gtb_false_iff, Hzero. now apply totalPMM_zero. }
  repeat split.
  - apply Hsq; [ tauto | intros ->; lra ].
  - apply Hsq; [ intros; qarith | intros ->; qarith ].
  - on_guard (oilSpotArea d) 0.
    + apply gtb_true_iff.
      assert (0 < Math.ceil (oilSpotArea d / 175))
        by (apply ceil_positive; qarith).
      lra.
    + apply gtb_false_iff. lra.
  - apply Hsq.
    + intros Hp. assert (0 < Math.ceil (totalPMM d / 125 * 2 / 5))
        by (apply ceil_positive; qarith).
      lra.
    + intros ->. vm_compute. discriminate.
  - on_guard (linearFootage d) 0.
    + apply gtb_true_iff.
      pose proof (crackMultiplier_bounds (crackSeverity d)) as [Hlo _].
      assert (0 < linearFootage d * crackMultiplier (crackSeverity d))
        by (apply Qmult_lt_0_compat; lra).
      assert (0 < Math.ceil
                    (linearFootage d * crackMultiplier (crackSeverity d) / 100))
        by (apply ceil_positive; qarith).
      lra.
    + apply gtb_false_iff. lra.
Qed.

Lemma shownLines_eq (now : string) (d : EstimateData) :
  shownLines (buildEstimate now d) =
  ((if squareFootage d >? 0 then ["SealMaster PMM"] else [])
   ++ (if squareFootage d >? 0 then ["Sand"] else [])
   ++ (if oilSpotArea d >? 0 then ["Prep Seal"] else [])
   ++ (if squareFootage d >? 0 then ["Fast Dry"] else [])
   ++ (if linearFootage d >? 0 then ["CrackMaster"] else []))%list.
Proof.
  pose proof (line_guards now d) as (G1 & G2 & G3 & G4 & G5); cbv zeta in *.
  unfold shownLines, materialLines; cbv zeta.
  rewrite G1, G2, G3, G4, G5.
  destruct (squareFootage d >? 0), (oilSpotArea d >? 0), (linearFootage d >? 0);
    reflexivity.
Qed.

(** X1. A material line appears on the results card exactly when the input
    that causes it is positive: sealant, sand and fast-dry additive with
    the square footage, prep seal with the oil spot area, crack filler
    with the linear footage. *)
Theorem shown_lines_follow_inputs (now : string) (d : EstimateData) :
  let shown := shownLines (buildEstimate now d) in
  (In "SealMaster PMM" shown <-> 0 < squareFootage d) /\
  (In "Sand" shown <-> 0 < squareFootage d) /\
  (In "Fast Dry" shown <-> 0 < squareFootage d) /\
  (In "Prep Seal" shown <-> 0 < oilSpotArea d) /\
  (In "CrackMaster" shown <-> 0 < linearFootage d).
Proof.
  cbv zeta. rewrite shownLines_eq.
  rewrite <- !gtb_true_iff.
  destruct (squareFootage d >? 0), (oilSpotArea d >? 0), (linearFootage d >? 0);
    simpl; repeat split; intros H;
    try discriminate H; try reflexivity;
    repeat (destruct H as [H | H]; try discriminate H); tauto.
Qed.


(** ** Closed forms of the costs *)

Lemma materialCosts_closed (d : EstimateData) :
  let c := snd (calculateMaterials d) in
  Costs.sealMasterPMM c == totalPMM d * 3.79 /\
  Costs.sand c == Math.ceil (totalPMM d * 0.06) * 10 /\
  Costs.prepSeal c ==
    (if oilSpotArea d >? 0 then Math.ceil (oilSpotArea d / 175) else 0) * 50 /\
  Costs.fastDry c == Math.ceil (totalPMM d * 0.0032) * 50 /\
  Costs.crackMaster c ==
    (if linearFootage d >? 0
     then Math.ceil (linearFootage d * crackMultiplier (crackSeverity d) / 100)
     else 0) * 44.95.
Proof.
  cbv zeta. rewrite calculateMaterials_costs. unfold materialCosts; simpl.
  rewrite sealMasterPMM_eq, sand_eq, fastDry_eq, prepSeal_eq, crackMaster_eq.
  unfold MATERIAL_COSTS.sealMasterPMM, MATERIAL_COSTS.sand50lb,
    MATERIAL_COSTS.prepSeal5gal, MATERIAL_COSTS.fastDry5gal,
    MATERIAL_COSTS.crackMaster30lb, APPLICATION_RATES.sandMixRatio.
  split; [ reflexivity | ].
  split; [ apply Qmult_comp; [ apply ceil_compat; field | reflexivity ] | ].
  split; [ ring | ].
  split; [ apply Qmult_comp; [ apply ceil_compat; field | reflexivity ] | ].
  reflexivity.
Qed.

Lemma totalLabor_closed (d : EstimateData) :
  Labor.totalLabor (calculateLaborAndEquipment d) ==
  185 * Qmax (workedHours d) 4 + 0.6 * travelDistance d.
Proof.
  rewrite totalLabor_eq, laborCost_eq, equipmentCost_eq, fuelCost_eq, laborHours_eq.
  unfold BUSINESS_CONFIG.blendedLaborRate, Math.max. ring.
Qed.

Lemma total_closed (now : string) (d : EstimateData) :
  Estimate.total (buildEstimate now d) ==
  Estimate.subtotal (buildEstimate now d) * (1.15 + profitMargin d / 100).
Proof.
  change (Estimate.total (buildEstimate now d))
    with (Estimate.subtotal (buildEstimate now d)
          + Estimate.subtotal (buildEstimate now d) * 0.15
          + Estimate.subtotal (buildEstimate now d) * (profitMargin d / 100)).
  ring.
Qed.

(** ** A bigger job is never cheaper *)







(** ** The smallest quote *)

Lemma subtotal_closed (now : string) (d : EstimateData) :
  Estimate.subtotal (buildEstimate now d) ==
  Materials.totalMaterialCost (fst (calculateMaterials d))
  + 185 * Qmax (workedHours d) 4 + 0.6 * travelDistance d.
Proof.
  change (Estimate.subtotal (buildEstimate now d))
    with (Materials.totalMaterialCost (fst (calculateMaterials d))
          + Labor.totalLabor (calculateLaborAndEquipment d)).
  rewrite totalLabor_closed. ring.
Qed.

(** X4. With a travel distance and a profit margin that are not negative,
    no estimate has a subtotal below 740 (four hours of crew and
    equipment) or a total below 851 (that plus the overhead). *)
Theorem minimum_quote (now : string) (d : EstimateData) :
  0 <= travelDistance d ->
  0 <= profitMargin d ->
  740 <= Estimate.subtotal (buildEstimate now d) /\
  851 <= Estimate.total (buildEstimate now d).
Proof.
  intros Htd Hpm.
  assert (Hsub : 740 <= Estimate.subtotal (buildEstimate now d)).
  { rewrite subtotal_closed.
    pose proof (totalMaterialCost_nonneg d).
    pose proof (Q.le_max_r (workedHours d) 4). lra. }
  split; [ exact Hsub | ].
  rewrite total_closed.
  assert (0 <= Estimate.subtotal (buildEstimate now d) * (profitMargin d / 100))
    by (apply Qmult_le_0_compat; qarith).
  lra.
Qed.

Lemma minimum_quote_witness :
  740 <= Estimate.subtotal (buildEstimate "2025-06-01T12:00:00.000Z" fullJob) /\
  851 <= Estimate.total (buildEstimate "2025-06-01T12:00:00.000Z" fullJob).
Proof.
  apply (minimum_quote "2025-06-01T12:00:00.000Z" fullJob);
    vm_compute; discriminate.
Defined.

(** X5. A job without any positive quantity and without travel is quoted
    the four hour minimum: materials 0, subtotal 740, and the total is
    740 marked up by the overhead and the profit margin. *)
Theorem empty_job_quote (now : string) (d : EstimateData) :
  squareFootage d <= 0 -> linearFootage d <= 0 -> oilSpotArea d <= 0 ->
  travelDistance d == 0 ->
  let e := buildEstimate now d in
  Materials.totalMaterialCost (Estimate.materials e) == 0 /\
  shownLines e = [] /\
  Estimate.subtotal e == 740 /\
  Estimate.total e == 740 * (1.15 + profitMargin d / 100).
Proof.
  intros Hsq Hlf Hoil Htd e.
  assert (Hmat : Materials.totalMaterialCost (fst (calculateMaterials d)) == 0).
  { rewrite calculateMaterials_total, reduce_sum_values.
    pose proof (materialCosts_closed d) as (A1 & A2 & A3 & A4 & A5).
    cbv zeta in *. rewrite A1, A2, A3, A4, A5.
    rewrite (totalPMM_zero d Hsq), (nonpositive_guard _ Hoil),
      (nonpositive_guard _ Hlf).
    reflexivity. }
  assert (Hw : workedHours d == 0).
  { unfold workedHours.
    rewrite (nonpositive_guard _ Hsq), (nonpositive_guard _ Hlf). reflexivity. }
  assert (Hsub : Estimate.subtotal e == 740).
  { unfold e. rewrite subtotal_closed, Hmat, Hw, Htd. reflexivity. }
  split; [ exact Hmat | ]. split; [ | split ].
  - unfold e. rewrite shownLines_eq.
    now rewrite (nonpositive_guard _ Hsq), (nonpositive_guard _ Hoil),
      (nonpositive_guard _ Hlf).
  - exact Hsub.
  - unfold e in *. rewrite total_closed, Hsub. reflexivity.
Qed.

Lemma empty_job_quote_witness :
  Estimate.total (buildEstimate "2025-06-01T12:00:00.000Z" scenario2) ==
  740 * (1.15 + 20 / 100).
Proof.
  apply (empty_job_quote "2025-06-01T12:00:00.000Z" scenario2);
    vm_compute; (discriminate || reflexivity).
Defined.

(** X6. Labor and equipment cost 185 per billed hour; a job of at most four
    worked hours is billed four hours, 740, and a longer one its worked
    hours. *)
Theorem labor_per_billed_hour (d : EstimateData) :
  let l := calculateLaborAndEquipment d in
  Labor.laborCost l + Labor.equipmentCost l == 185 * Labor.laborHours l /\
  (workedHours d <= 4 ->
   Labor.laborHours l == 4 /\ Labor.laborCost l + Labor.equipmentCost l == 740) /\
  (4 <= workedHours d -> Labor.laborHours l == workedHours d).
Proof.
  cbv zeta. rewrite laborCost_eq, equipmentCost_eq, laborHours_eq.
  unfold BUSINESS_CONFIG.blendedLaborRate, Math.max.
  split; [ ring | ]. split; intros H.
  - rewrite (Q.max_r _ _ H). split; [ reflexivity | ring ].
  - now rewrite (Q.max_l _ _ H).
Qed.

Lemma labor_per_billed_hour_witness :
  Labor.laborHours (calculateLaborAndEquipment scenario1) == 4 /\
  Labor.laborHours (calculateLaborAndEquipment fullJob) == workedHours fullJob.
Proof.
  split.
  - apply (proj1 (proj2 (labor_per_billed_hour scenario1))).
    vm_compute; discriminate.
  - apply (proj2 (proj2 (labor_per_billed_hour fullJob))).
    vm_compute; discriminate.
Defined.

(** ** Inputs the estimate does not depend on *)

(** X7. A number of coats of at most 1 (0, a fraction, a negative number) is
    priced as one coat; and while the square footage is not positive the
    number of coats does not matter at all. *)
Theorem coats_below_one_are_one_coat (now : string) (d : EstimateData) :
  (numberOfCoats d <= 1 ->
   buildEstimate now d = buildEstimate now (updateField (NumberOfCoats 1) d)) /\
  (squareFootage d <= 0 ->
   forall n : Q,
     buildEstimate now (updateField (NumberOfCoats n) d) = buildEstimate now d).
Proof.
  split.
  - intros H. apply gtb_false_iff in H. destruct d; simpl in H.
    unfold buildEstimate, calculateMaterials, materialQuantities;
      cbn [numberOfCoats updateField].
    rewrite H. reflexivity.
  - intros H n. apply nonpositive_guard in H. destruct d; simpl in H.
    unfold buildEstimate, calculateMaterials, materialQuantities;
      cbn [squareFootage updateField].
    rewrite H. reflexivity.
Qed.

Lemma coats_below_one_are_one_coat_witness :
  buildEstimate "2025-06-01T12:00:00.000Z"
    (updateField (NumberOfCoats (-2)) scenario1) =
  buildEstimate "2025-06-01T12:00:00.000Z" scenario1 /\
  buildEstimate "2025-06-01T12:00:00.000Z"
    (updateField (NumberOfCoats 3) scenario3) =
  buildEstimate "2025-06-01T12:00:00.000Z" scenario3.
Proof.
  split.
  - apply (proj1 (coats_below_one_are_one_coat "2025-06-01T12:00:00.000Z"
                    (updateField (NumberOfCoats (-2)) scenario1))).
    vm_compute; discriminate.
  - apply (proj2 (coats_below_one_are_one_coat "2025-06-01T12:00:00.000Z"
                    scenario3)).
    vm_compute; discriminate.
Defined.

(** X8. The project type, the parking stalls, the client name, the job site
    address and the notes are collected by the form but never priced:
    changing any of them leaves the whole estimate unchanged. *)
Theorem unpriced_fields (now : string) (d : EstimateData) :
  (forall v, buildEstimate now (updateField (ProjectType v) d) = buildEstimate now d) /\
  (forall v, buildEstimate now (updateField (ParkingStalls v) d) = buildEstimate now d) /\
  (forall v, buildEstimate now (updateField (ClientName v) d) = buildEstimate now d) /\
  (forall v, buildEstimate now (updateField (JobSiteAddress v) d) = buildEstimate now d) /\
  (forall v, buildEstimate now (updateField (AdditionalNotes v) d) = buildEstimate now d).
Proof.
  destruct d. repeat split.
Qed.

(** ** Editing the form *)

(** X9. [handleInputChange] behaves as a store with one cell per field: a
    field reads back the value just written, a write leaves the other
    fields alone, a second write to a field replaces the first, and
    writes to different fields can be swapped. *)
Theorem updateField_store (fv1 fv2 : FieldValue) (d : EstimateData) :
  readField fv1 (updateField fv1 d) = fv1 /\
  (sameField fv1 fv2 = false ->
   readField fv1 (updateField fv2 d) = readField fv1 d /\
   updateField fv1 (updateField fv2 d) = updateField fv2 (updateField fv1 d)) /\
  (sameField fv1 fv2 = true ->
   updateField fv2 (updateField fv1 d) = updateField fv2 d).
Proof.
  destruct d. split; [ destruct fv1; reflexivity | ].
  split; intros H; destruct fv1, fv2; try discriminate H;
    try split; reflexivity.
Qed.

Lemma updateField_store_witness :
  (readField (SquareFootage 7) (updateField (TravelDistance 9) scenario1)
   = readField (SquareFootage 7) scenario1 /\
   updateField (SquareFootage 7) (updateField (TravelDistance 9) scenario1)
   = updateField (TravelDistance 9) (updateField (SquareFootage 7) scenario1)) /\
  updateField (SquareFootage 8) (updateField (SquareFootage 7) scenario1)
  = updateField (SquareFootage 8) scenario1.
Proof.
  split.
  - apply (proj1 (proj2 (updateField_store
                           (SquareFootage 7) (TravelDistance 9) scenario1))).
    reflexivity.
  - apply (proj2 (proj2 (updateField_store
                           (SquareFootage 7) (SquareFootage 8) scenario1))).
    reflexivity.
Defined.

Lemma edits_keep_estimate (edits : list FormEvent) (st : State) :
  calculatedEstimate (fold_left uiStep (map Edit edits) st) =
  calculatedEstimate st.
Proof.
  revert st. induction edits as [ | ev edits IH ]; intros st; [ reflexivity | ].
  simpl. now rewrite IH.
Qed.

Lemma generate_keeps_form (now : string) (st : State) :
  estimateData (generateEstimate now st) = estimateData st.
Proof. reflexivity. Qed.

Lemma run_form_only (events : list UiEvent) (st st' : State) :
  estimateData st = estimateData st' ->
  estimateData (fold_left uiStep events st) =
  estimateData (fold_left uiStep events st').
Proof.
  revert st st'. induction events as [ | ev events IH ]; intros st st' H;
    [ exact H | ].
  simpl. apply IH. destruct ev; simpl; now rewrite H.
Qed.

(** X10. The results card is a snapshot: after a click on generate, however
    the form is edited afterwards, the stored estimate remains the one
    of the form as it was at the click; and the click itself changes
    nothing in the form, which ends as if the click had not happened. *)
Theorem estimate_is_a_snapshot
    (before : list UiEvent) (now : string) (edits : list FormEvent) :
  let clicked := uiRun before in
  let after := uiRun (before ++ Generate now :: map Edit edits) in
  calculatedEstimate after = Some (buildEstimate now (estimateData clicked)) /\
  estimateData after = estimateData (uiRun (before ++ map Edit edits)).
Proof.
  cbv zeta. unfold uiRun. rewrite !fold_left_app. simpl.
  rewrite edits_keep_estimate. split; [ reflexivity | ].
  apply run_form_only. reflexivity.
Qed.

(** After a later edit of the profit margin the card can thus print a
    percentage beside a profit that was computed with another one. *)
Lemma stale_margin_label :
  let st := uiRun [Edit (TypeSquareFootage (Some 1000%Z)); Generate "t";
                   Edit (TypeProfitMargin (Some 50%Z))] in
  shownMarginPercent st == 50 /\
  exists e, calculatedEstimate st = Some e /\
            Estimate.profit e == Estimate.subtotal e * (20 / 100).
Proof.
  split; [ reflexivity | ]. eexists. split; reflexivity.
Qed.

(** ** What the form can hold *)






(** * Properties of the project board *)

(** ** Progress of a project *)

Section Progress.

Variable milestones : list Milestone.t.
Variable project : Project.t.

Let mine := filter (Board.ofProject project) milestones.
Let done := filter Board.isCompleted mine.

Lemma done_le_mine : (length done <= length mine)%nat.
Proof. apply filter_length_le. Qed.

Lemma calculateProgress_eq :
  Board.calculateProgress milestones project =
  if Nat.eqb (length mine) 0 then 0
  else inject_Z (Z.of_nat (length done)) / inject_Z (Z.of_nat (length mine)) * 100.
Proof. reflexivity. Qed.

Lemma mine_positive :
  Nat.eqb (length mine) 0 = false -> 0 < inject_Z (Z.of_nat (length mine)).
Proof.
  intros H. apply Nat.eqb_neq in H.
  change 0 with (inject_Z 0). rewrite <- Zlt_Qlt. lia.
Qed.

(** X12. The progress of a project is a percentage: it lies between 0 and
    100, whatever the milestones are. *)
Theorem calculateProgress_bounds :
  0 <= Board.calculateProgress milestones project <= 100.
Proof.
  rewrite calculateProgress_eq.
  destruct (Nat.eqb (length mine) 0) eqn:E; [ split; lra | ].
  pose proof (mine_positive E) as Hpos.
  set (n := inject_Z (Z.of_nat (length mine))) in *.
  set (k := inject_Z (Z.of_nat (length done))).
  assert (Hk0 : 0 <= k).
  { unfold k. change 0 with (inject_Z 0). rewrite <- Zle_Qle. lia. }
  assert (Hkn : k <= n).
  { unfold k, n. rewrite <- Zle_Qle. pose proof done_le_mine. lia. }
  assert (H0 : 0 <= k / n) by (apply Qle_shift_div_l; lra).
  assert (H1 : k / n <= 1) by (apply Qle_shift_div_r; lra).
  split; lra.
Qed.

Lemma ratio_times_n :
  Nat.eqb (length mine) 0 = false ->
  forall x : Q,
    inject_Z (Z.of_nat (length done)) / inject_Z (Z.of_nat (length mine)) * 100
      == x * 100 <->
    inject_Z (Z.of_nat (length done)) == x * inject_Z (Z.of_nat (length mine)).
Proof.
  intros E x. pose proof (mine_positive E) as Hpos.
  set (n := inject_Z (Z.of_nat (length mine))) in *.
  set (k := inject_Z (Z.of_nat (length done))).
  assert (Hn : ~ n == 0) by lra.
  split; intros H.
  - assert (Hq : k / n == x) by lra.
    rewrite <- Hq. field. exact Hn.
  - rewrite H. field. exact Hn.
Qed.

(** X13. The progress is 100 exactly when the project has a milestone and all
    its milestones are completed; it is 0 exactly when none of its
    milestones is completed, in particular when it has none. *)
Theorem calculateProgress_extremes :
  (Board.calculateProgress milestones project == 100 <->
   (exists m, In m milestones /\ Board.ofProject project m = true) /\
   (forall m, In m milestones -> Board.ofProject project m = true ->
              Board.isCompleted m = true)) /\
  (Board.calculateProgress milestones project == 0 <->
   (forall m, In m milestones -> Board.ofProject project m = true ->
              Board.isCompleted m = false)).
Proof.
  rewrite calculateProgress_eq.
  assert (Hall : length done = length mine <->
                 forall m, In m milestones -> Board.ofProject project m = true ->
                           Board.isCompleted m = true).
  { split.
    - intros H m Hin Hm. apply filter_length_forallb in H.
      rewrite forallb_forall in H. apply H. apply filter_In. now split.
    - intros H. unfold done. f_equal.
      apply forallb_filter_id. apply forallb_forall.
      intros m Hm. apply filter_In in Hm as [Hin Hm]. now apply H. }
  assert (Hnone : length done = 0%nat <->
                  forall m, In m milestones -> Board.ofProject project m = true ->
                            Board.isCompleted m = false).
  { split.
    - intros H m Hin Hm. apply length_zero_iff_nil in H.
      destruct (Board.isCompleted m) eqn:Ec; [ | reflexivity ].
      assert (Hd : In m done) by (apply filter_In; split;
                                  [ apply filter_In; now split | exact Ec ]).
      rewrite H in Hd. destruct Hd.
    - intros H. apply length_zero_iff_nil.
      destruct done as [ | m rest ] eqn:Ed; [ reflexivity | ].
      assert (Hd : In m done) by (rewrite Ed; now left).
      apply filter_In in Hd as [Hm Hc]. apply filter_In in Hm as [Hin Hm].
      rewrite (H m Hin Hm) in Hc. discriminate. }
  assert (Hex : Nat.eqb (length mine) 0 = false <->
                exists m, In m milestones /\ Board.ofProject project m = true).
  { rewrite Nat.eqb_neq. split.
    - intros H. destruct mine as [ | m rest ] eqn:Em; [ now destruct H | ].
      exists m. apply filter_In. fold mine. rewrite Em. now left.
    - intros (m & Hm) H. apply filter_In in Hm. fold mine in Hm.
      apply length_zero_iff_nil in H. rewrite H in Hm. destruct Hm. }
  destruct (Nat.eqb (length mine) 0) eqn:E.
  - split.
    + split; [ intros H; vm_compute in H; discriminate H | ].
      intros (Hm & _). apply Hex in Hm. discriminate Hm.
    + split; [ | reflexivity ].
      intros _. apply Hnone. apply Nat.eqb_eq in E.
      pose proof done_le_mine. lia.
  - split.
    + pose proof (ratio_times_n E 1) as R.
      change (1 * 100) with 100 in R. rewrite R.
      rewrite Qmult_1_l, inject_Z_injective, Nat2Z.inj_iff, Hall.
      split; [ intros H; split; [ now apply Hex | exact H ] | tauto ].
    + pose proof (ratio_times_n E 0) as R.
      change (0 * 100) with 0 in R. rewrite R.
      rewrite Qmult_0_l. change 0 with (inject_Z (Z.of_nat 0)).
      rewrite inject_Z_injective, Nat2Z.inj_iff. exact Hnone.
Qed.

End Progress.

(** Counting the elements that pass a test does not depend on the
    order of the list. *)
Lemma count_reordered {A : Type} (test : A -> bool) (xs ys : list A) :
  Permutation xs ys ->
  length (filter test xs) = length (filter test ys).
Proof.
  intros H. induction H; cbn [filter].
  - reflexivity.
  - destruct (test x); cbn [length]; congruence.
  - destruct (test x), (test y); reflexivity.
  - congruence.
Qed.

Lemma filter_both {A : Type} (first second : A -> bool) (xs : list A) :
  filter second (filter first xs) =
  filter (fun x => andb (first x) (second x)) xs.
Proof.
  induction xs as [ | x xs IH ]; [ reflexivity | ].
  cbn [filter]. destruct (first x); cbn [filter andb]; now rewrite IH.
Qed.

(** X14. The progress of a project does not depend on the order in which the
    milestones were loaded, and a milestone of another project does not
    change it. *)
Theorem calculateProgress_own_milestones
    (milestones milestones' : list Milestone.t) (project : Project.t) :
  (Permutation milestones milestones' ->
   Board.calculateProgress milestones project =
   Board.calculateProgress milestones' project) /\
  (forall m, Milestone.project_id m <> Project.id project ->
             Board.calculateProgress (m :: milestones) project =
             Board.calculateProgress milestones project).
Proof.
  split.
  - intros H. unfold Board.calculateProgress; cbv zeta.
    rewrite !filter_both.
    rewrite (count_reordered (Board.ofProject project) _ _ H).
    now rewrite (count_reordered _ _ _ H).
  - intros m Hm.
    assert (E : Board.ofProject project m = false)
      by (apply String.eqb_neq; exact Hm).
    unfold Board.calculateProgress; cbv zeta. cbn [filter].
    now rewrite E.
Qed.

Lemma calculateProgress_own_milestones_witness :
  let m id owner status := Milestone.mk id owner "" "" status "" "" [] in
  let p := Project.mk "p1" "" "" "in_progress" "" "" "" "" "" "" "" 0 0 "" "" in
  Board.calculateProgress [m "a" "p1" "completed"; m "b" "p1" "pending"] p =
  Board.calculateProgress [m "b" "p1" "pending"; m "a" "p1" "completed"] p /\
  Board.calculateProgress
    [m "c" "p2" "completed"; m "a" "p1" "completed"; m "b" "p1" "pending"] p =
  Board.calculateProgress [m "a" "p1" "completed"; m "b" "p1" "pending"] p.
Proof.
  intros m p. split.
  - apply (proj1 (calculateProgress_own_milestones
                    [m "a" "p1" "completed"; m "b" "p1" "pending"]
                    [m "b" "p1" "pending"; m "a" "p1" "completed"] p)).
    apply perm_swap.
  - apply (proj2 (calculateProgress_own_milestones
                    [m "a" "p1" "completed"; m "b" "p1" "pending"] [] p)).
    discriminate.
Defined.

(** X15. The board holds the milestones of the selected project only (they
    are fetched by its id): once they have arrived, every project with
    another id is shown with a progress of 0, whatever its own
    milestones are. *)
Theorem unselected_project_shows_no_progress
    (st : Board.State) (selected project : Project.t)
    (rows : list Milestone.t) :
  Board.selectedProject st = Some selected ->
  Forall (fun m => Milestone.project_id m = Project.id selected) rows ->
  Project.id project <> Project.id selected ->
  Board.calculateProgress
    (Board.milestones
       (Board.step st (Board.MilestonesFetched (Success (Some rows)))))
    project = 0.
Proof.
  intros Hsel Hrows Hid. simpl. rewrite Hsel. simpl.
  unfold Board.calculateProgress; cbv zeta.
  assert (E : filter (Board.ofProject project) rows = []).
  { induction Hrows as [ | m rows Hm _ IH ]; [ reflexivity | ].
    assert (Em : Board.ofProject project m = false).
    { unfold Board.ofProject. rewrite Hm.
      apply String.eqb_neq. now apply not_eq_sym. }
    cbn [filter]. now rewrite Em. }
  now rewrite E.
Qed.

Lemma unselected_project_shows_no_progress_witness :
  let p id := Project.mk id "" "" "in_progress" "" "" "" "" "" "" "" 0 0 "" "" in
  let st := Board.mkState [p "p1"; p "p2"] [] (Some (p "p1")) false
                          NewProject.empty [] in
  Board.calculateProgress
    (Board.milestones
       (Board.step st
          (Board.MilestonesFetched
             (Success (Some [Milestone.mk "a" "p1" "" "" "completed" "" "" []])))))
    (p "p2") = 0.
Proof.
  intros p st.
  apply (unselected_project_shows_no_progress st (p "p1") (p "p2")).
  - reflexivity.
  - repeat constructor.
  - discriminate.
Defined.

(** ** Changing the status of a project *)

(** The update applied to each listed project. *)
Lemma updateProjectStatus_projects (projectId status : string) (st : Board.State) :
  Board.projects (Board.updateProjectStatus projectId status (Success tt) st) =
  map (fun p => if String.eqb (Project.id p) projectId
                then Project.set_status status p else p)
      (Board.projects st).
Proof.
  unfold Board.updateProjectStatus; cbv zeta.
  destruct (Board.selectedProject st) as [ p | ];
    [ destruct (String.eqb (Project.id p) projectId) | ]; reflexivity.
Qed.

(** X16. A successful status update keeps the list as it is, project by
    project and in the same order, except that every project with the
    given id now has the new status. *)
Theorem updateProjectStatus_effect
    (projectId status : string) (st : Board.State) :
  let ps := Board.projects st in
  let ps' :=
    Board.projects (Board.updateProjectStatus projectId status (Success tt) st) in
  length ps' = length ps /\
  forall n p,
    nth_error ps n = Some p ->
    nth_error ps' n =
    Some (if String.eqb (Project.id p) projectId
          then Project.set_status status p else p) /\
    (Project.id p <> projectId -> nth_error ps' n = Some p) /\
    (Project.id p = projectId ->
     exists p', nth_error ps' n = Some p' /\
                Project.status p' = status /\ Project.id p' = projectId /\
                Project.name p' = Project.name p /\
                Project.estimated_cost p' = Project.estimated_cost p).
Proof.
  cbv zeta. rewrite updateProjectStatus_projects.
  split; [ apply length_map | ].
  intros n p Hn.
  rewrite nth_error_map, Hn. simpl.
  split; [ reflexivity | ]. split.
  - intros H. apply String.eqb_neq in H. now rewrite H.
  - intros H. apply String.eqb_eq in H. rewrite H.
    eexists. split; [ reflexivity | ]. apply String.eqb_eq in H.
    repeat split; assumption.
Qed.

Lemma updateProjectStatus_effect_witness :
  let p id := Project.mk id "" "" "in_progress" "" "" "" "" "" "" "" 0 0 "" "" in
  let st := Board.mkState [p "p1"; p "p2"] [] None false NewProject.empty [] in
  nth_error
    (Board.projects (Board.updateProjectStatus "p2" "completed" (Success tt) st)) 0
  = Some (p "p1").
Proof.
  intros p st.
  apply (proj2 (updateProjectStatus_effect "p2" "completed" st) 0%nat (p "p1")).
  - reflexivity.
  - discriminate.
Defined.

Lemma set_status_id (status : string) (p : Project.t) :
  Project.id (Project.set_status status p) = Project.id p.
Proof. reflexivity. Qed.

Lemma updateProjectStatus_selected (projectId status : string) (st : Board.State) :
  Board.selectedProject
    (Board.updateProjectStatus projectId status (Success tt) st) =
  option_map (fun p => if String.eqb (Project.id p) projectId
                       then Project.set_status status p else p)
             (Board.selectedProject st).
Proof.
  unfold Board.updateProjectStatus; cbv zeta.
  destruct (Board.selectedProject st) as [ p | ] eqn:E;
    [ destruct (String.eqb (Project.id p) projectId) eqn:Ep | ];
    simpl; rewrite E; simpl; now rewrite ?Ep.
Qed.

(** X17. Of two successful status updates of the same project the later one
    decides, and updates of projects with different ids can be made in
    either order: list and selection end up the same. *)
Theorem updateProjectStatus_composition
    (id1 id2 status1 status2 : string) (st : Board.State) :
  let update := fun id status => Board.updateProjectStatus id status (Success tt) in
  (Board.projects (update id1 status2 (update id1 status1 st)) =
   Board.projects (update id1 status2 st) /\
   Board.selectedProject (update id1 status2 (update id1 status1 st)) =
   Board.selectedProject (update id1 status2 st)) /\
  (id1 <> id2 ->
   Board.projects (update id2 status2 (update id1 status1 st)) =
   Board.projects (update id1 status1 (update id2 status2 st)) /\
   Board.selectedProject (update id2 status2 (update id1 status1 st)) =
   Board.selectedProject (update id1 status1 (update id2 status2 st))).
Proof.
  cbv zeta.
  assert (Hsame : forall p : Project.t,
             (fun p => if String.eqb (Project.id p) id1
                       then Project.set_status status2 p else p)
               ((fun p => if String.eqb (Project.id p) id1
                          then Project.set_status status1 p else p) p) =
             (if String.eqb (Project.id p) id1
              then Project.set_status status2 p else p)).
  { intros p. cbv beta.
    destruct (String.eqb (Project.id p) id1) eqn:E;
      [ rewrite set_status_id, E; reflexivity | now rewrite E ]. }
  assert (Hswap : id1 <> id2 -> forall p : Project.t,
             (fun p => if String.eqb (Project.id p) id2
                       then Project.set_status status2 p else p)
               ((fun p => if String.eqb (Project.id p) id1
                          then Project.set_status status1 p else p) p) =
             (fun p => if String.eqb (Project.id p) id1
                       then Project.set_status status1 p else p)
               ((fun p => if String.eqb (Project.id p) id2
                          then Project.set_status status2 p else p) p)).
  { intros Hne p. cbv beta.
    destruct (String.eqb (Project.id p) id1) eqn:E1;
      destruct (String.eqb (Project.id p) id2) eqn:E2;
      rewrite ?set_status_id, ?E1, ?E2; try reflexivity.
    apply String.eqb_eq in E1, E2. congruence. }
  split; [ | intros Hne ]; split;
    rewrite ?updateProjectStatus_projects, ?updateProjectStatus_selected;
    rewrite ?map_map.
  - apply map_ext, Hsame.
  - destruct (Board.selectedProject st) as [ p | ]; simpl; [ | reflexivity ].
    f_equal. apply Hsame.
  - apply map_ext, (Hswap Hne).
  - destruct (Board.selectedProject st) as [ p | ]; simpl; [ | reflexivity ].
    f_equal. apply (Hswap Hne).
Qed.

Lemma updateProjectStatus_composition_witness :
  let p id := Project.mk id "" "" "in_progress" "" "" "" "" "" "" "" 0 0 "" "" in
  let st := Board.mkState [p "p1"; p "p2"] [] (Some (p "p2")) false
                          NewProject.empty [] in
  let update := fun id status => Board.updateProjectStatus id status (Success tt) in
  Board.projects (update "p2" "on_hold" (update "p1" "completed" st)) =
  Board.projects (update "p1" "completed" (update "p2" "on_hold" st)) /\
  Board.selectedProject (update "p2" "on_hold" (update "p1" "completed" st)) =
  Board.selectedProject (update "p1" "completed" (update "p2" "on_hold" st)).
Proof.
  intros p st update.
  apply (proj2 (updateProjectStatus_composition
                  "p1" "p2" "completed" "on_hold" st)).
  discriminate.
Defined.

(** ** The selected project *)



(** ** The statistics of the overview *)

Lemma totalValue_from (ps : list Project.t) (start : Q) :
  fold_left (fun sum p => sum + orZero (Project.estimated_cost p)) ps start ==
  start + Board.totalValue ps.
Proof.
  unfold Board.totalValue. revert start.
  induction ps as [ | p ps IH ]; intros start; simpl; [ ring | ].
  rewrite IH, (IH (0 + _)). ring.
Qed.

Lemma totalValue_cons (p : Project.t) (ps : list Project.t) :
  Board.totalValue (p :: ps) ==
  orZero (Project.estimated_cost p) + Board.totalValue ps.
Proof.
  unfold Board.totalValue at 1. simpl. rewrite totalValue_from. ring.
Qed.

Lemma orZero_id (x : Q) : orZero x == x.
Proof.
  unfold orZero. destruct (Qeq_bool x 0) eqn:E; [ | reflexivity ].
  apply Qeq_bool_iff in E. now rewrite E.
Qed.

Section MarkStatus.

Variables projectId status : string.

Let mark (p : Project.t) : Project.t :=
  if String.eqb (Project.id p) projectId then Project.set_status status p else p.

Lemma mark_others (ps : list Project.t) :
  ~ In projectId (map Project.id ps) -> map mark ps = ps.
Proof.
  induction ps as [ | q ps IH ]; intros H; [ reflexivity | ].
  simpl in *. rewrite IH by tauto. unfold mark.
  destruct (String.eqb_spec (Project.id q) projectId) as [ E | E ];
    [ exfalso; apply H; now left | reflexivity ].
Qed.

Lemma mark_value (ps : list Project.t) :
  Board.totalValue (map mark ps) == Board.totalValue ps.
Proof.
  induction ps as [ | q ps IH ]; [ reflexivity | ].
  simpl map. rewrite !totalValue_cons, IH.
  unfold mark. now destruct (String.eqb (Project.id q) projectId).
Qed.

Hypothesis leaves_active : status <> "in_progress".

Lemma mark_counts (ps : list Project.t) (p : Project.t) :
  NoDup (map Project.id ps) ->
  In p ps -> Project.id p = projectId -> Project.status p = "in_progress" ->
  S (Board.activeProjects (map mark ps)) = Board.activeProjects ps /\
  Board.completedProjects (map mark ps) =
  (Board.completedProjects ps + if String.eqb status "completed" then 1 else 0)%nat.
Proof.
  unfold Board.activeProjects, Board.completedProjects.
  induction ps as [ | q ps IH ]; intros Hnd Hin Hid Hst; [ destruct Hin | ].
  simpl in Hnd. apply NoDup_cons_iff in Hnd as [Hq Hnd].
  destruct Hin as [ -> | Hin ].
  - rewrite Hid in Hq. simpl map. rewrite (mark_others ps Hq).
    unfold mark. apply String.eqb_eq in Hid. rewrite Hid.
    assert (A1 : Board.hasStatus "in_progress" (Project.set_status status p)
                 = false) by (apply String.eqb_neq; exact leaves_active).
    assert (A2 : Board.hasStatus "in_progress" p = true)
      by (unfold Board.hasStatus; now rewrite Hst).
    assert (A3 : Board.hasStatus "completed" p = false)
      by (unfold Board.hasStatus; now rewrite Hst).
    assert (A4 : Board.hasStatus "completed" (Project.set_status status p)
                 = String.eqb status "completed") by reflexivity.
    cbn [filter]. rewrite A1, A2, A3, A4.
    destruct (String.eqb status "completed"); simpl; split; lia.
  - assert (Hne : Project.id q <> projectId).
    { intros E. apply Hq. rewrite E, <- Hid. now apply in_map. }
    destruct (IH Hnd Hin Hid Hst) as [IHa IHc].
    simpl map. unfold mark at 1 3. apply String.eqb_neq in Hne. rewrite Hne.
    cbn [filter].
    destruct (Board.hasStatus "in_progress" q), (Board.hasStatus "completed" q);
      simpl; rewrite ?IHc; split; lia.
Qed.

End MarkStatus.

(** X19. When the ids of the listed projects are distinct, a successful
    update of a project in progress to another status (the buttons set
    "completed" and "on_hold") takes exactly one project out of the
    active count, adds one to the completed count if the new status is
    "completed", and leaves the number of projects and the total value
    as they were. *)
Theorem status_update_moves_one_project
    (status : string) (p : Project.t) (st : Board.State) :
  status <> "in_progress" ->
  NoDup (map Project.id (Board.projects st)) ->
  In p (Board.projects st) ->
  Project.status p = "in_progress" ->
  let ps := Board.projects st in
  let ps' :=
    Board.projects
      (Board.updateProjectStatus (Project.id p) status (Success tt) st) in
  S (Board.activeProjects ps') = Board.activeProjects ps /\
  Board.completedProjects ps' =
    (Board.completedProjects ps
     + if String.eqb status "completed" then 1 else 0)%nat /\
  Board.totalProjects ps' = Board.totalProjects ps /\
  Board.totalValue ps' == Board.totalValue ps.
Proof.
  intros Hs Hnd Hin Hst. cbv zeta. rewrite updateProjectStatus_projects.
  destruct (mark_counts (Project.id p) status Hs (Board.projects st) p
              Hnd Hin eq_refl Hst) as [Ha Hc].
  split; [ exact Ha | ]. split; [ exact Hc | ].
  split; [ apply length_map | apply mark_value ].
Qed.

Lemma status_update_moves_one_project_witness :
  let p id := Project.mk id "" "" "in_progress" "" "" "" "" "" "" "" 100 0 "" "" in
  let st := Board.mkState [p "p1"; p "p2"] [] None false NewProject.empty [] in
  Board.activeProjects
    (Board.projects (Board.updateProjectStatus "p2" "completed" (Success tt) st))
  = 1%nat.
Proof.
  intros p st.
  destruct (status_update_moves_one_project "completed" (p "p2") st)
    as (Ha & _).
  - discriminate.
  - repeat constructor; simpl; intuition discriminate.
  - right; left; reflexivity.
  - reflexivity.
  - cbv zeta in Ha. simpl Project.id in Ha.
    apply eq_add_S. exact Ha.
Defined.

(** ** Creating a project *)

(** X20. When somebody is logged in and the insertion succeeds, the stored
    row becomes the first listed and the first recent project, the
    number of projects grows by one and the total value by its estimated
    cost, the dialog closes with an emptied form, and selection and
    milestones stay as they are. *)
Theorem createProject_success
    (user : string) (data : Project.t) (st : Board.State) :
  let st' := Board.createProject (Success (Some user)) (Success data) st in
  Board.projects st' = data :: Board.projects st /\
  hd_error (Board.recentProjects (Board.projects st')) = Some data /\
  Board.totalProjects (Board.projects st') = S (Board.totalProjects (Board.projects st)) /\
  Board.totalValue (Board.projects st') ==
    Board.totalValue (Board.projects st) + Project.estimated_cost data /\
  Board.isCreatingProject st' = false /\
  Board.newProject st' = NewProject.empty /\
  Board.selectedProject st' = Board.selectedProject st /\
  Board.milestones st' = Board.milestones st.
Proof.
  cbv zeta. simpl. repeat split.
  rewrite totalValue_cons, orZero_id. ring.
Qed.

(** X21. A backend call that fails changes nothing on the board: list,
    milestones, selection, dialog and the typed form stay as they were.
    The same holds when nobody is logged in at the creation of a
    project. Except for the milestones, whose failure is only logged, the
    user is told by one destructive toast. *)
Theorem failed_calls_change_nothing (st : Board.State) :
  let unchanged st' :=
    Board.projects st' = Board.projects st /\
    Board.milestones st' = Board.milestones st /\
    Board.selectedProject st' = Board.selectedProject st /\
    Board.isCreatingProject st' = Board.isCreatingProject st /\
    Board.newProject st' = Board.newProject st in
  let warned st' :=
    exists t, Board.toasts st' = t :: Board.toasts st /\ destructive t = true in
  (unchanged (Board.fetchProjects Failure st) /\
   warned (Board.fetchProjects Failure st)) /\
  (forall projectId,
      Board.fetchMilestones projectId Failure st = st) /\
  (forall auth insert,
      auth = Failure \/ auth = Success None \/ insert = Failure ->
      unchanged (Board.createProject auth insert st) /\
      warned (Board.createProject auth insert st)) /\
  (forall projectId status,
      unchanged (Board.updateProjectStatus projectId status Failure st) /\
      warned (Board.updateProjectStatus projectId status Failure st)).
Proof.
  cbv zeta. split; [ | split; [ | split ] ].
  - split; [ repeat split | eexists; split; reflexivity ].
  - reflexivity.
  - intros auth insert [ -> | [ -> | -> ] ];
      try (split; [ repeat split | eexists; split; reflexivity ]).
    destruct auth as [ | [ user | ] ];
      (split; [ repeat split | eexists; split; reflexivity ]).
  - intros projectId status.
    split; [ repeat split | eexists; split; reflexivity ].
Qed.

Lemma failed_calls_change_nothing_witness :
  Board.projects
    (Board.createProject (Success None) Failure Board.initialState) = [].
Proof.
  destruct (failed_calls_change_nothing Board.initialState)
    as (_ & _ & Hcreate & _).
  destruct (Hcreate (Success None) Failure) as ((Hp & _) & _).
  - right; left; reflexivity.
  - exact Hp.
Defined.

(** ** Badges *)

(** X22. The status badge is gray exactly for the statuses other than
    "completed", "in_progress", "on_hold" and "cancelled" ("pending" is
    one of them), and these four have four different colours: two
    statuses with the same colour are equal or both gray. *)
Theorem getStatusColor_classes (s1 s2 : string) :
  let gray := "bg-gray-500/10 text-gray-400 border-gray-500/20" in
  (Board.getStatusColor s1 = gray <->
   s1 <> "completed" /\ s1 <> "in_progress" /\ s1 <> "on_hold" /\
   s1 <> "cancelled") /\
  Board.getStatusColor "pending" = gray /\
  (Board.getStatusColor s1 = Board.getStatusColor s2 ->
   s1 = s2 \/ (Board.getStatusColor s1 = gray /\ Board.getStatusColor s2 = gray)).
Proof.
  cbv zeta. unfold Board.getStatusColor.
  split; [ | split; [ reflexivity | ] ].
  - destruct (String.eqb_spec s1 "completed");
      [ split; [ discriminate | tauto ] | ].
    destruct (String.eqb_spec s1 "in_progress");
      [ split; [ discriminate | tauto ] | ].
    destruct (String.eqb_spec s1 "on_hold");
      [ split; [ discriminate | tauto ] | ].
    destruct (String.eqb_spec s1 "cancelled");
      [ split; [ discriminate | tauto ] | ].
    tauto.
  - destruct (String.eqb_spec s1 "completed");
      [ | destruct (String.eqb_spec s1 "in_progress");
          [ | destruct (String.eqb_spec s1 "on_hold");
              [ | destruct (String.eqb_spec s1 "cancelled") ] ] ];
      (destruct (String.eqb_spec s2 "completed");
       [ | destruct (String.eqb_spec s2 "in_progress");
           [ | destruct (String.eqb_spec s2 "on_hold");
               [ | destruct (String.eqb_spec s2 "cancelled") ] ] ]);
      intros H; try discriminate H; subst;
      solve [ now left | right; split; reflexivity ].
Qed.

Lemma getStatusColor_classes_witness :
  "in_progress" = "in_progress" \/
  (Board.getStatusColor "in_progress"
   = "bg-gray-500/10 text-gray-400 border-gray-500/20" /\
   Board.getStatusColor "in_progress"
   = "bg-gray-500/10 text-gray-400 border-gray-500/20").
Proof.
  apply (proj2 (proj2 (getStatusColor_classes "in_progress" "in_progress"))).
  reflexivity.
Defined.

(** X23. A label is final: labelling a label gives the label again. The five
    known types get their label and every other type is shown as it
    is. *)
Theorem getProjectTypeLabel_idempotent (type : string) :
  Board.getProjectTypeLabel (Board.getProjectTypeLabel type) =
  Board.getProjectTypeLabel type /\
  (type <> "asphalt_paving" -> type <> "sealcoating" ->
   type <> "crack_filling" -> type <> "line_striping" -> type <> "patching" ->
   Board.getProjectTypeLabel type = type).
Proof.
  unfold Board.getProjectTypeLabel at 2 3 4.
  destruct (String.eqb_spec type "asphalt_paving"); [ split; [ reflexivity | tauto ] | ].
  destruct (String.eqb_spec type "sealcoating"); [ split; [ reflexivity | tauto ] | ].
  destruct (String.eqb_spec type "crack_filling"); [ split; [ reflexivity | tauto ] | ].
  destruct (String.eqb_spec type "line_striping"); [ split; [ reflexivity | tauto ] | ].
  destruct (String.eqb_spec type "patching"); [ split; [ reflexivity | tauto ] | ].
  split; [ | reflexivity ].
  unfold Board.getProjectTypeLabel.
  repeat match goal with
         | H : type <> _ |- _ => apply String.eqb_neq in H; rewrite H; clear H
         end.
  reflexivity.
Qed.

Lemma getProjectTypeLabel_idempotent_witness :
  Board.getProjectTypeLabel "crack_sealing" = "crack_sealing".
Proof.
  apply (proj2 (getProjectTypeLabel_idempotent "crack_sealing"));
    discriminate.
Defined.

(** * Properties of the fleet helpers *)

Lemma ltb_true_iff (x y : Q) : ltb x y = true <-> x < y.
Proof.
  unfold ltb. rewrite Bool.negb_true_iff, <- Bool.not_true_iff_false, Qle_bool_iff.
  split; [ apply Qnot_le_lt | apply Qlt_not_le ].
Qed.

Lemma ltb_false_iff (x y : Q) : ltb x y = false <-> y <= x.
Proof.
  unfold ltb. rewrite Bool.negb_false_iff. apply Qle_bool_iff.
Qed.

Lemma hours_lt (elapsed h : Q) :
  ltb (elapsed / Fleet.msPerHour) h = true <-> elapsed < h * 3600000.
Proof.
  rewrite ltb_true_iff. unfold Fleet.msPerHour.
  setoid_replace (elapsed / (1000 * 60 * 60)) with (elapsed / 3600000)
    by (apply Qdiv_comp; reflexivity).
  split; intros H; qarith.
Qed.

Section FleetStatus.

Variable now : Q.
Variable getTime : string -> option Q.
Variable devices : list Device.t.
Variable vehicle : FleetAsset.t.

Let elapsed : option Q := Fleet.sinceLastSeen now getTime devices vehicle.

(** X24. A vehicle is "Active" exactly when its tracker was seen less than an
    hour (3,600,000 ms) ago, a time in the future included; "Idle" when
    that is at least an hour and less than a day; and "Offline" in every
    other case: no tracker, no readable date, or a day and more. *)
Theorem getVehicleStatus_cases :
  let status := Fleet.getVehicleStatus now getTime devices vehicle in
  (status = "Active" <-> exists ms, elapsed = Some ms /\ ms < 3600000) /\
  (status = "Idle" <->
   exists ms, elapsed = Some ms /\ 3600000 <= ms /\ ms < 86400000) /\
  (status = "Offline" <->
   elapsed = None \/ exists ms, elapsed = Some ms /\ 86400000 <= ms) /\
  (status = "Active" \/ status = "Idle" \/ status = "Offline").
Proof.
  cbv zeta. unfold Fleet.getVehicleStatus, elapsed, Fleet.sinceLastSeen.
  destruct (Fleet.deviceOf devices vehicle) as [ device | ].
  2:{ repeat split; try discriminate; try tauto;
      try (intros (ms & H & _); discriminate H). }
  destruct (getTime (Device.last_seen device)) as [ lastSeen | ].
  2:{ repeat split; try discriminate; try tauto;
      try (intros (ms & H & _); discriminate H). }
  cbv zeta.
  pose proof (hours_lt (now - lastSeen) 1) as H1.
  pose proof (hours_lt (now - lastSeen) 24) as H24.
  change (1 * 3600000) with 3600000 in H1.
  change (24 * 3600000) with 86400000 in H24.
  destruct (ltb ((now - lastSeen) / Fleet.msPerHour) 1) eqn:E1.
  - assert (L1 : now - lastSeen < 3600000) by now apply H1.
    repeat split; try discriminate; try tauto.
    + intros _. now exists (now - lastSeen).
    + intros (ms & [= <-] & Hms & _). lra.
    + intros [ H | (ms & [= <-] & Hms) ]; [ discriminate H | lra ].
  - assert (L1 : 3600000 <= now - lastSeen).
    { apply Qnot_lt_le. intros H. apply H1 in H. discriminate H. }
    destruct (ltb ((now - lastSeen) / Fleet.msPerHour) 24) eqn:E24.
    + assert (L24 : now - lastSeen < 86400000) by now apply H24.
      repeat split; try discriminate; try tauto.
      * intros (ms & [= <-] & Hms). lra.
      * intros _. now exists (now - lastSeen).
      * intros [ H | (ms & [= <-] & Hms) ]; [ discriminate H | lra ].
    + assert (L24 : 86400000 <= now - lastSeen).
      { apply Qnot_lt_le. intros H. apply H24 in H. discriminate H. }
      repeat split; try discriminate; try tauto.
      * intros (ms & [= <-] & Hms). lra.
      * intros (ms & [= <-] & _ & Hms). lra.
      * intros _. right. now exists (now - lastSeen).
Qed.

(** X25. The colour of the badge goes with its text: green with "Active",
    yellow with "Idle", and gray (no tracker) or red with "Offline". *)
Theorem status_colour_matches_status :
  let status := Fleet.getVehicleStatus now getTime devices vehicle in
  let colour := Fleet.getVehicleStatusColor now getTime devices vehicle in
  (status = "Active" <->
   colour = "bg-green-500/10 text-green-400 border-green-500/20") /\
  (status = "Idle" <->
   colour = "bg-yellow-500/10 text-yellow-400 border-yellow-500/20") /\
  (status = "Offline" <->
   colour = "bg-gray-500/10 text-gray-400 border-gray-500/20" \/
   colour = "bg-red-500/10 text-red-400 border-red-500/20") /\
  (colour = "bg-gray-500/10 text-gray-400 border-gray-500/20" <->
   Fleet.deviceOf devices vehicle = None).
Proof.
  cbv zeta. unfold Fleet.getVehicleStatus, Fleet.getVehicleStatusColor.
  destruct (Fleet.deviceOf devices vehicle) as [ device | ];
    [ destruct (getTime (Device.last_seen device)) as [ lastSeen | ];
      [ cbv zeta;
        destruct (ltb ((now - lastSeen) / Fleet.msPerHour) 1);
        [ | destruct (ltb ((now - lastSeen) / Fleet.msPerHour) 24) ] | ] | ];
    repeat split; intros H; try discriminate H; try reflexivity;
    try (destruct H as [ H | H ]; discriminate H);
    try (now left); try (now right).
Qed.

End FleetStatus.



(** X27. Service is due exactly when a next due mileage is recorded (not 0)
    and it is at most 1.1 times the mileage of the last oil change. With
    a due mileage of last change plus interval this means that the
    interval is at most a tenth of the mileage of the last change. *)
Theorem isMaintenanceDue_iff (details : VehicleDetail.t) :
  let last := VehicleDetail.last_oil_change_mileage details in
  let next := VehicleDetail.next_oil_change_due_mileage details in
  (Fleet.isMaintenanceDue details = true <->
   ~ next == 0 /\ 10 * next <= 11 * last) /\
  (next == last + VehicleDetail.oil_change_interval_miles details -> ~ next == 0 ->
   (Fleet.isMaintenanceDue details = true <->
    10 * VehicleDetail.oil_change_interval_miles details <= last)).
Proof.
  cbv zeta. unfold Fleet.isMaintenanceDue, geb; cbv zeta.
  assert (Hdue : Qle_bool (VehicleDetail.next_oil_change_due_mileage details)
                   (VehicleDetail.last_oil_change_mileage details * 1.1) = true <->
                 10 * VehicleDetail.next_oil_change_due_mileage details
                 <= 11 * VehicleDetail.last_oil_change_mileage details).
  { rewrite Qle_bool_iff. split; intros H; lra. }
  destruct (Qeq_bool (VehicleDetail.next_oil_change_due_mileage details) 0) eqn:E.
  - apply Qeq_bool_iff in E. split.
    + split; [ discriminate | tauto ].
    + intros _ H. contradiction.
  - apply Qeq_bool_neq in E. split.
    + rewrite Hdue. tauto.
    + intros Hnext _. rewrite Hdue, Hnext. split; intros H; lra.
Qed.

Lemma isMaintenanceDue_iff_witness :
  let d := VehicleDetail.mk "d" "v" "" "" "" "" 6 "" 60000 65000 5000
                                 35 35 "" "" "" "" in
  Fleet.isMaintenanceDue d = true <-> 10 * 5000 <= 60000.
Proof.
  intros d. apply (proj2 (isMaintenanceDue_iff d)).
  - reflexivity.
  - vm_compute. discriminate.
Defined.

(** X28. A registration is flagged exactly when an expiry date is recorded,
    it can be read, and it lies at most 30 days (2,592,000,000 ms) after
    now: a registration that has already expired is flagged too, while
    one without a date, or with a date that cannot be read, is not. *)
Theorem isRegistrationExpiring_iff
    (now : Q) (getTime : string -> option Q) (vehicle : FleetAsset.t) :
  (Fleet.isRegistrationExpiring now getTime vehicle = true <->
   FleetAsset.registration_expiry vehicle <> "" /\
   exists expiry,
     getTime (FleetAsset.registration_expiry vehicle) = Some expiry /\
     expiry - now <= 2592000000) /\
  (forall expiry,
      FleetAsset.registration_expiry vehicle <> "" ->
      getTime (FleetAsset.registration_expiry vehicle) = Some expiry ->
      expiry <= now ->
      Fleet.isRegistrationExpiring now getTime vehicle = true).
Proof.
  assert (Hdays : forall expiry,
             Qle_bool ((expiry - now) / Fleet.msPerDay) 30 = true <->
             expiry - now <= 2592000000).
  { intros expiry. rewrite Qle_bool_iff. unfold Fleet.msPerDay.
    setoid_replace ((expiry - now) / (1000 * 60 * 60 * 24))
      with ((expiry - now) / 86400000) by (apply Qdiv_comp; reflexivity).
    split; intros H; qarith. }
  unfold Fleet.isRegistrationExpiring.
  destruct (String.eqb_spec (FleetAsset.registration_expiry vehicle) "") as [ E | E ].
  - split; [ split; [ discriminate | tauto ] | intros; contradiction ].
  - destruct (getTime (FleetAsset.registration_expiry vehicle)) as [ t | ]; cbv zeta.
    + split.
      * rewrite Hdays. split.
        -- intros H. split; [ exact E | now exists t ].
        -- intros (_ & expiry & [= <-] & H). exact H.
      * intros expiry _ [= <-] H. apply Hdays. lra.
    + split.
      * split; [ discriminate | intros (_ & expiry & H & _); discriminate H ].
      * intros expiry _ H. discriminate H.
Qed.

Lemma isRegistrationExpiring_iff_witness :
  let v := FleetAsset.mk "v" "" "truck" "" "" 2024 "" "" "2020-01-01" "" "" "" in
  Fleet.isRegistrationExpiring 1750000000000 (fun _ => Some 1577836800000) v
  = true.
Proof.
  intros v.
  apply (proj2 (isRegistrationExpiring_iff 1750000000000
                  (fun _ => Some 1577836800000) v) 1577836800000).
  - discriminate.
  - reflexivity.
  - vm_compute. discriminate.
Defined.
